(** * The presence-aware message relay of [p2p/server.py]

    A shallow embedding of the relay server: the connection registry
    [clients], the in-memory offline store [offline_messages], the per
    connection read loop [handle_client] and the background sweep
    [heartbeat_checker].

    Modelling decisions.
    - One iteration of the read loop of [handle_client] and one pass of the
      loop of [heartbeat_checker] are atomic steps of a transition system;
      the interleaving of the threads is the order of the events.  A sweep
      visits the registry in the order of [map_to_list], not in insertion
      order; no statement depends on that order.
    - [time.time()] reads a clock that is part of the state and is advanced
      by [Tick] events only; timestamps are integers.
    - The bytes of a received chunk are classified by what the interpreter's
      libraries do with them ([recv_result]): [recv] raising, [.decode()]
      raising, the empty string, [json.loads] raising [JSONDecodeError] or
      another exception, or a JSON value.
    - A JSON object is its list of items; numbers are integers.
    - Sockets are handles; a [send] raises exactly when the handle was
      closed by the server or reset by the peer.  Every [send] and [close]
      call is recorded in the trace of the step that makes it.  What a
      [recv] returns is the environment's choice, also on a handle that the
      sweep has closed: a [recv] that was blocked at that time still returns
      the next chunk.
    - A [str] is modelled by its UTF-8 bytes, a lone surrogate (which JSON
      text can hold as an escape) by the three bytes the "surrogatepass"
      handler gives it.  Standard output is UTF-8 with the strict handler:
      a [print] raises [UnicodeEncodeError] exactly when a string it formats
      holds a lone surrogate.  The text that [.decode()] returns holds none,
      and neither does what was printed before in the same iteration, so the
      prints of lines 59, 34, 75 and 95 do not raise.
    - The offline store is the in-memory dictionary ([USE_REDIS = False]).
    - What [print] writes is not modelled, except that one iteration of
      [receive_messages] of [p2p/client.py] returns what it prints for a
      new message. *)

From stdpp Require Import gmap strings list fin_maps.

#[local] Set Warnings "-register-all".
#[local] Open Scope Z_scope.

(** ** JSON values, as [json.loads] returns them *)

Inductive json :=
| JNull
| JBool (b : bool)
| JInt (z : Z)
| JStr (s : string)
| JArr (l : list json)
| JObj (items : list (string * json)).

(** [d.get(key)] on the items of a dictionary: [None] when the key is absent. *)
Fixpoint get (items : list (string * json)) (key : string) : json :=
  match items with
  | [] => JNull
  | (k, v) :: rest => if String.eqb k key then v else get rest key
  end.

(** [v == s] for a string literal [s]. *)
Definition eq_str (v : json) (s : string) : bool :=
  match v with
  | JStr s' => String.eqb s' s
  | _ => false
  end.

(** Truth value of a Python object, as [if client_id:] tests it. *)
Definition truthy (v : json) : bool :=
  match v with
  | JNull => false
  | JBool b => b
  | JInt z => negb (Z.eqb z 0)
  | JStr s => negb (String.eqb s "")
  | JArr l => match l with [] => false | _ => true end
  | JObj items => match items with [] => false | _ => true end
  end.

(** ** Printing

    [print] of a string that holds a lone surrogate raises.  In the UTF-8
    bytes of a string the byte 237 occurs only as the first byte of the code
    points U+D000 to U+DFFF, and the next byte is 160 or more exactly for the
    surrogates U+D800 to U+DFFF. *)

Fixpoint has_surrogate (s : string) : bool :=
  match s with
  | EmptyString => false
  | String a rest =>
      match rest with
      | EmptyString => false
      | String b _ =>
          (Nat.eqb (Ascii.nat_of_ascii a) 237
             && Nat.leb 160 (Ascii.nat_of_ascii b)
             && Nat.leb (Ascii.nat_of_ascii b) 191)
          || has_surrogate rest
      end
  end.

(** Whether [print] of the value succeeds.  A list or a dictionary is
    written with the [repr] of its strings, which escapes surrogates. *)
Definition printable (v : json) : bool :=
  match v with
  | JStr s => negb (has_surrogate s)
  | _ => true
  end.

(** ** Dictionary keys

    The hashable values among the JSON values; [True] and [1] (and [False]
    and [0]) are the same key.  Lists and dictionaries are unhashable: using
    one as a key raises [TypeError]. *)

Inductive pykey :=
| KNone
| KInt (z : Z)
| KStr (s : string).

Global Instance pykey_eq_dec : EqDecision pykey.
Proof. solve_decision. Defined.

Definition pykey_enc (k : pykey) : option (Z + string) :=
  match k with
  | KNone => None
  | KInt z => Some (inl z)
  | KStr s => Some (inr s)
  end.

Definition pykey_dec (x : option (Z + string)) : pykey :=
  match x with
  | None => KNone
  | Some (inl z) => KInt z
  | Some (inr s) => KStr s
  end.

Global Instance pykey_countable : Countable pykey.
Proof. apply (inj_countable' pykey_enc pykey_dec). by intros []. Defined.

Definition hash_key (v : json) : option pykey :=
  match v with
  | JNull => Some KNone
  | JBool b => Some (KInt (if b then 1 else 0))
  | JInt z => Some (KInt z)
  | JStr s => Some (KStr s)
  | JArr _ | JObj _ => None
  end.

(** ** Server state *)

Definition sock := nat.
Bind Scope nat_scope with sock.

(** [{"socket": socket, "last_seen": timestamp}] *)
Record client_info := ClientInfo {
  socket : sock;
  last_seen : Z
}.

Record server := Server {
  clients : gmap pykey client_info;             (* the connection registry *)
  offline_messages : gmap pykey (list json);    (* the offline store *)
  threads : gmap sock json;     (* running [handle_client] threads and their [client_id] *)
  closed : gset sock;           (* handles on which [close()] was called *)
  reset : gset sock;            (* handles whose peer is gone *)
  next_sock : sock;             (* the next handle [accept()] returns *)
  now : Z                       (* the clock [time.time()] reads *)
}.

Definition HEARTBEAT_TIMEOUT : Z := 15.

Definition with_clients (f : gmap pykey client_info → gmap pykey client_info)
    (st : server) : server :=
  Server (f (clients st)) (offline_messages st) (threads st) (closed st)
         (reset st) (next_sock st) (now st).

Definition with_offline (f : gmap pykey (list json) → gmap pykey (list json))
    (st : server) : server :=
  Server (clients st) (f (offline_messages st)) (threads st) (closed st)
         (reset st) (next_sock st) (now st).

Definition with_threads (f : gmap sock json → gmap sock json)
    (st : server) : server :=
  Server (clients st) (offline_messages st) (f (threads st)) (closed st)
         (reset st) (next_sock st) (now st).

(** ** Socket calls *)

Inductive effect :=
| Send (c : sock) (message : json) (ok : bool)   (* [c.send(...)]; [ok = false]: it raised *)
| Close (c : sock).                              (* [c.close()] *)

Definition send_ok (st : server) (c : sock) : bool :=
  bool_decide ((c ∉ closed st) ∧ (c ∉ reset st)).

(** [c.close()]; closing a closed handle is a no-op. *)
Definition close_socket (c : sock) (st : server) : server :=
  Server (clients st) (offline_messages st) (threads st) ({[c]} ∪ closed st)
         (reset st) (next_sock st) (now st).

(** ** The offline store *)

(** [offline_messages.setdefault(recipient, []).append(message)] *)
Definition store_offline_message (recipient : pykey) (message : json)
    (st : server) : server :=
  with_offline
    (λ off, <[recipient := default [] (off !! recipient) ++ [message]]> off) st.

(** [offline_messages.pop(client_id, [])] *)
Definition retrieve_offline_messages (client_id : pykey) (st : server)
    : list json * server :=
  (default [] (offline_messages st !! client_id),
   with_offline (delete client_id) st).

(** ** One iteration of the read loop of [handle_client] *)

Inductive recv_result :=
| RecvRaises                 (* [recv] raises *)
| DecodeRaises               (* the bytes are not UTF-8: [.decode()] raises *)
| RecvEmpty                  (* [data] is empty *)
| JSONDecodeError            (* [json.loads(data)] raises [JSONDecodeError] *)
| LoadsRaises                (* [json.loads(data)] raises another exception
                                ([RecursionError] on deeply nested text) *)
| Loaded (message : json).   (* [json.loads(data)] returns [message] *)

Inductive flow :=
| Continue     (* the loop goes on to the next [recv] *)
| Break        (* [break] *)
| Raised.      (* an exception reaches the outer [except] *)

Record iteration := Iteration {
  it_state : server;
  it_trace : list effect;
  it_client_id : json;
  it_flow : flow
}.

(** The [for offline_msg in msgs] loop: a failing [send] is printed and the
    loop goes on. *)
Definition send_all (c : sock) (st : server) (msgs : list json) : list effect :=
  (λ m, Send c m (send_ok st c)) <$> msgs.

Definition on_register (c : sock) (items : list (string * json)) (st : server)
    : iteration :=
  let client_id := get items "sender" in
  match hash_key client_id with
  | None => Iteration st [] client_id Raised
  | Some k =>
      let st1 := with_clients (λ cl, <[k := ClientInfo c (now st)]> cl) st in
      if printable client_id then
        let '(msgs, st2) := retrieve_offline_messages k st1 in
        Iteration st2 (send_all c st2 msgs) client_id Continue
      else Iteration st1 [] client_id Raised    (* the [print] of line 67 *)
  end.

Definition on_heartbeat (client_id : json) (st : server) : iteration :=
  match hash_key client_id with
  | None => Iteration st [] client_id Raised
  | Some k =>
      match clients st !! k with
      | Some info =>
          Iteration
            (with_clients (λ cl, <[k := ClientInfo (socket info) (now st)]> cl) st)
            [] client_id Continue
      | None => Iteration st [] client_id Continue
      end
  end.

(** Whether the [print] of line 89 succeeds. *)
Definition message_prints (items : list (string * json)) : bool :=
  printable (get items "sender") && printable (get items "recipient")
  && printable (get items "payload").

Definition on_message (client_id : json) (message : json)
    (items : list (string * json)) (st : server) : iteration :=
  let recipient := get items "recipient" in
  if negb (message_prints items) then Iteration st [] client_id Raised else
  match hash_key recipient with
  | None => Iteration st [] client_id Raised
  | Some k =>
      match clients st !! k with
      | Some info =>
          if bool_decide (now st - last_seen info ≤ HEARTBEAT_TIMEOUT)%Z then
            if send_ok st (socket info) then
              Iteration st [Send (socket info) message true] client_id Continue
            else
              Iteration (store_offline_message k message st)
                        [Send (socket info) message false] client_id Continue
          else
            Iteration (store_offline_message k message st) [] client_id Continue
      | None =>
          Iteration (store_offline_message k message st) [] client_id Continue
      end
  end.

Definition loop_body (c : sock) (client_id : json) (r : recv_result)
    (st : server) : iteration :=
  match r with
  | RecvRaises | DecodeRaises => Iteration st [] client_id Raised
  | RecvEmpty => Iteration st [] client_id Break
  | JSONDecodeError => Iteration st [] client_id Continue
  | LoadsRaises => Iteration st [] client_id Raised
  | Loaded message =>
      match message with
      | JObj items =>
          let action := get items "action" in
          if eq_str action "register" then on_register c items st
          else if eq_str action "heartbeat" then on_heartbeat client_id st
          else if eq_str action "message" then on_message client_id message items st
          else if printable action then Iteration st [] client_id Continue
          else Iteration st [] client_id Raised   (* the [print] of line 103 *)
      | _ => Iteration st [] client_id Raised    (* no attribute [get] *)
      end
  end.

(** The [finally] block.  With an unhashable, true [client_id] the test
    [client_id in clients] raises and [client_socket.close()] is not
    reached; with a [client_id] that cannot be printed the entry is deleted
    and then the [print] of line 110 raises, before [close()] too. *)
Definition finally (c : sock) (client_id : json) (st : server)
    : server * list effect :=
  if truthy client_id then
    match hash_key client_id with
    | Some k =>
        if printable client_id
        then (close_socket c (with_clients (delete k) st), [Close c])
        else (with_clients (delete k) st, [])
    | None => (st, [])
    end
  else (close_socket c st, [Close c]).

(** ** One pass of [heartbeat_checker] *)

Definition stale (t : Z) (info : client_info) : bool :=
  bool_decide (t - last_seen info > HEARTBEAT_TIMEOUT)%Z.

Definition to_remove (st : server) : list pykey :=
  (filter (λ p, stale (now st) p.2 = true) (map_to_list (clients st))).*1.

(** The [for client_id in to_remove] loop.  A missing key makes the [del]
    raise, which ends the thread. *)
Fixpoint evict (ids : list pykey) (st : server) : server * list effect :=
  match ids with
  | [] => (st, [])
  | k :: rest =>
      match clients st !! k with
      | Some info =>
          let st1 := with_clients (delete k) (close_socket (socket info) st) in
          let '(st2, tr) := evict rest st1 in
          (st2, Close (socket info) :: tr)
      | None => (st, [])
      end
  end.

Definition heartbeat_checker (st : server) : server * list effect :=
  evict (to_remove st) st.

(** ** The transition system *)

Inductive event :=
| Accept                              (* [accept()] returns; a thread is started *)
| Recv (c : sock) (r : recv_result)   (* the thread of [c] runs one iteration *)
| Sweep                               (* [heartbeat_checker] runs one pass *)
| Tick (d : N)                        (* the clock advances by [d] *)
| PeerReset (c : sock).               (* the peer of [c] goes away *)

Definition step (e : event) (st : server) : server * list effect :=
  match e with
  | Accept =>
      (Server (clients st) (offline_messages st)
              (<[next_sock st := JNull]> (threads st)) (closed st) (reset st)
              (S (next_sock st)) (now st), [])
  | Recv c r =>
      match threads st !! c with
      | None => (st, [])
      | Some client_id =>
          let it := loop_body c client_id r st in
          match it_flow it with
          | Continue =>
              (with_threads (λ th, <[c := it_client_id it]> th) (it_state it),
               it_trace it)
          | Break | Raised =>
              let '(st', tr) := finally c (it_client_id it) (it_state it) in
              (with_threads (delete c) st', it_trace it ++ tr)
          end
      end
  | Sweep => heartbeat_checker st
  | Tick d =>
      (Server (clients st) (offline_messages st) (threads st) (closed st)
              (reset st) (next_sock st) (now st + Z.of_N d), [])
  | PeerReset c =>
      (Server (clients st) (offline_messages st) (threads st) (closed st)
              ({[c]} ∪ reset st) (next_sock st) (now st), [])
  end.

Definition init (t0 : Z) : server := Server ∅ ∅ ∅ ∅ ∅ 0%nat t0.

Fixpoint run (evs : list event) (st : server) : server :=
  match evs with
  | [] => st
  | e :: rest => run rest (step e st).1
  end.

Definition reachable (st : server) : Prop := ∃ t0 evs, st = run evs (init t0).

(** ** Frames, as [client.py] builds them *)

Definition register_items (client_id : string) (timestamp : Z)
    : list (string * json) :=
  [("action", JStr "register"); ("sender", JStr client_id);
   ("timestamp", JInt timestamp)].

Definition heartbeat_items (client_id : string) (timestamp : Z)
    : list (string * json) :=
  [("action", JStr "heartbeat"); ("sender", JStr client_id);
   ("timestamp", JInt timestamp)].

Definition deliver_items (client_id recipient : string) (timestamp : Z)
    (payload : string) : list (string * json) :=
  [("action", JStr "message"); ("sender", JStr client_id);
   ("recipient", JStr recipient); ("timestamp", JInt timestamp);
   ("payload", JStr payload)].

Definition register_msg (client_id : string) (timestamp : Z) : json :=
  JObj (register_items client_id timestamp).

Definition heartbeat_msg (client_id : string) (timestamp : Z) : json :=
  JObj (heartbeat_items client_id timestamp).

Definition deliver_msg (client_id recipient : string) (timestamp : Z)
    (payload : string) : json :=
  JObj (deliver_items client_id recipient timestamp payload).

(** ** Derived notions used in the statements *)


(** The time that passes during a sequence of events. *)
Fixpoint elapsed (evs : list event) : Z :=
  match evs with
  | [] => 0
  | Tick d :: rest => Z.of_N d + elapsed rest
  | _ :: rest => elapsed rest
  end.

(** Every identifier of [ids] has a registry entry. *)
Definition all_registered (ids : list pykey) (st : server) : Prop :=
  ∀ k, k ∈ ids → is_Some (clients st !! k).

(** Every registry entry was seen at most [bound] before the current time. *)
Definition seen_within (bound : Z) (st : server) : Prop :=
  ∀ k info, clients st !! k = Some info → now st - last_seen info ≤ bound.

(** The identifier of every running thread is hashable and can be printed. *)
Definition threads_wf (st : server) : Prop :=
  ∀ c id, threads st !! c = Some id →
          printable id = true ∧ is_Some (hash_key id).

(** ** Scenarios *)

Module Scenario.

(** [A] is connected on handle 0 and registered. *)
Definition one_online : server :=
  run [Accept; Recv 0 (Loaded (register_msg "A" 0))] (init 0).

(** [A] is registered on handle 0; handle 1 is connected, not registered. *)
Definition one_online_one_connected : server :=
  run [Accept; Accept; Recv 0 (Loaded (register_msg "A" 0))] (init 0).

(** [A] is registered on handle 0 and [B] on handle 1. *)
Definition two_online : server :=
  run [Accept; Accept; Recv 0 (Loaded (register_msg "A" 0));
       Recv 1 (Loaded (register_msg "B" 0))] (init 0).

(** As [two_online], and then the peer of [B] went away. *)
Definition recipient_gone : server :=
  run [PeerReset 1] two_online.

(** [A] registered at time 0 and it is now time 16. *)
Definition one_silent : server :=
  run [Tick 16] one_online.

(** Handle 0 registered [A], then [B], and then reached end of stream. *)
Definition renamed_then_closed : server :=
  run [Recv 0 (Loaded (register_msg "B" 0)); Recv 0 RecvEmpty] one_online.

(** [A] registered on handle 0 and then again on handle 1. *)
Definition reconnected : server :=
  run [Recv 1 (Loaded (register_msg "A" 0))] one_online_one_connected.

(** Handle 0 sent a Register frame that has no [sender]; handle 1 is
    connected and has sent nothing. *)
Definition anonymous_registered : server :=
  run [Accept; Accept; Recv 0 (Loaded (JObj [("action", JStr "register")]));
       Tick 3] (init 0).

End Scenario.

(** ** Further notions: the store, fatal input, the client's receive loop *)

(** [store_offline_message] called for each pair of [l], in order. *)
Definition store_all (l : list (pykey * json)) (st : server) : server :=
  foldl (λ acc p, store_offline_message p.1 p.2 acc) st l.

(** The messages of [l] that are for [recipient], in order. *)
Definition messages_for (recipient : pykey) (l : list (pykey * json))
    : list json :=
  (filter (λ p, p.1 = recipient) l).*2.

(** [m] is a Deliver frame whose [recipient] is the key [k], and whose
    [sender], [recipient] and [payload] can be printed. *)
Definition filed_under (k : pykey) (m : json) : Prop :=
  ∃ items, m = JObj items ∧
           eq_str (get items "action") "message" = true ∧
           hash_key (get items "recipient") = Some k ∧
           message_prints items = true.

(** No queue of the store is empty, and every queue holds Deliver frames for
    its own key. *)
Definition store_wf (st : server) : Prop :=
  ∀ k q, offline_messages st !! k = Some q →
         q ≠ [] ∧ ∀ m, m ∈ q → filed_under k m.

(** Each send of [tr] is a Deliver frame for a key that the
    registry binds to the socket of the send when the iteration is over. *)
Definition sends_to_registered (st' : server) (tr : list effect) : Prop :=
  ∀ c m ok, Send c m ok ∈ tr →
    ∃ k info, filed_under k m ∧ clients st' !! k = Some info ∧ socket info = c.

(** Input on which the loop body raises before it has changed anything:
    [recv], [.decode()] or [json.loads] raise, the JSON value has no [get],
    the [print] of a Deliver frame raises or its [recipient] is unhashable,
    or the [print] of an unknown action raises. *)
Definition fatal (r : recv_result) : Prop :=
  match r with
  | RecvRaises | DecodeRaises | LoadsRaises => True
  | RecvEmpty | JSONDecodeError => False
  | Loaded (JObj items) =>
      (eq_str (get items "action") "message" = true ∧
       (message_prints items = false ∨
        hash_key (get items "recipient") = None)) ∨
      (eq_str (get items "action") "register" = false ∧
       eq_str (get items "action") "heartbeat" = false ∧
       eq_str (get items "action") "message" = false ∧
       printable (get items "action") = false)
  | Loaded _ => True
  end.

(** One iteration of [receive_messages] of [client.py]: what it prints as
    [(sender, payload)] of a new message, and how the loop goes on.  Every
    exception is caught inside the loop, printed, and followed by [break]. *)
Definition receive_messages (r : recv_result) : option (json * json) * flow :=
  match r with
  | RecvRaises | DecodeRaises | LoadsRaises => (None, Raised)
  | RecvEmpty => (None, Break)
  | JSONDecodeError => (None, Continue)
  | Loaded message =>
      match message with
      | JObj items =>
          if eq_str (get items "action") "message" then
            if printable (get items "sender") && printable (get items "payload")
            then (Some (get items "sender", get items "payload"), Continue)
            else (None, Raised)
          else (None, Continue)
      | _ => (None, Raised)
      end
  end.

Module Session.

(** Handle 0 is connected, not registered, and has sent a Deliver frame for
    [B], who is not registered. *)
Definition one_queued : server :=
  run [Accept; Recv 0 (Loaded (deliver_msg "A" "B" 0 "hi"))] (init 0).

(** As [one_queued], and handle 1 is connected. *)
Definition one_queued_one_connected : server :=
  run [Accept] one_queued.

(** [A] is registered on handle 0 and [B] on handle 1; [A] was last seen at
    time 0, [B] at time 10, and it is now time 16. *)
Definition one_stale_one_fresh : server :=
  run [Accept; Accept; Recv 0 (Loaded (register_msg "A" 0)); Tick 10;
       Recv 1 (Loaded (register_msg "B" 10)); Tick 6] (init 0).

End Session.

Module Malformed.

(** The string of the one code point U+D800, a lone surrogate, as the JSON
    escape for that code point loads. *)
Definition lone_surrogate : string :=
  String (Ascii.ascii_of_nat 237)
    (String (Ascii.ascii_of_nat 160)
       (String (Ascii.ascii_of_nat 128) EmptyString)).

(** A Deliver frame from [A] for [B] whose payload cannot be printed. *)
Definition unprintable_deliver : list (string * json) :=
  [("action", JStr "message"); ("sender", JStr "A"); ("recipient", JStr "B");
   ("timestamp", JInt 0); ("payload", JStr lone_surrogate)].

(** A Deliver frame from [A] whose recipient is a list. *)
Definition list_recipient_deliver : list (string * json) :=
  [("action", JStr "message"); ("sender", JStr "A");
   ("recipient", JArr [JStr "B"]); ("timestamp", JInt 0);
   ("payload", JStr "hi")].

End Malformed.

(** * Properties *)

(** ** The read loop, one iteration *)

Lemma step_recv (st : server) (c : sock) (client_id : json) (r : recv_result) :
  threads st !! c = Some client_id →
  step (Recv c r) st =
    let it := loop_body c client_id r st in
    match it_flow it with
    | Continue =>
        (with_threads (λ th, <[c := it_client_id it]> th) (it_state it),
         it_trace it)
    | Break | Raised =>
        let '(st', tr) := finally c (it_client_id it) (it_state it) in
        (with_threads (delete c) st', it_trace it ++ tr)
    end.
Proof. intros Hth. unfold step. by rewrite Hth. Qed.

Lemma eq_str_true (v : json) (s : string) : eq_str v s = true → v = JStr s.
Proof.
  destruct v; simpl; try discriminate.
  intros H. apply String.eqb_eq in H. by subst.
Qed.

Lemma loop_body_register c client_id items st :
  eq_str (get items "action") "register" = true →
  loop_body c client_id (Loaded (JObj items)) st = on_register c items st.
Proof. intros H. simpl. by rewrite H. Qed.

Lemma loop_body_heartbeat c client_id items st :
  eq_str (get items "action") "heartbeat" = true →
  loop_body c client_id (Loaded (JObj items)) st = on_heartbeat client_id st.
Proof. intros H. simpl. by rewrite (eq_str_true _ _ H). Qed.

Lemma loop_body_message c client_id items st :
  eq_str (get items "action") "message" = true →
  loop_body c client_id (Loaded (JObj items)) st =
    on_message client_id (JObj items) items st.
Proof. intros H. simpl. by rewrite (eq_str_true _ _ H). Qed.

Lemma send_ok_open st c :
  c ∉ closed st → send_ok st c = bool_decide (c ∉ reset st).
Proof. intros Hopen. unfold send_ok. apply bool_decide_ext. tauto. Qed.

(** ** Routing a Deliver frame *)

Section deliver.
Variables (st : server) (c : sock) (client_id : json).
Variables (items : list (string * json)) (k : pykey).
Hypothesis Hthread : threads st !! c = Some client_id.
Hypothesis Haction : eq_str (get items "action") "message" = true.
Hypothesis Hrecipient : hash_key (get items "recipient") = Some k.
Hypothesis Hprints : message_prints items = true.

Lemma deliver_step :
  step (Recv c (Loaded (JObj items))) st =
    let it := on_message client_id (JObj items) items st in
    (with_threads (λ th, <[c := client_id]> th) (it_state it), it_trace it).
Proof.
  rewrite (step_recv _ _ _ _ Hthread).
  rewrite (loop_body_message _ _ _ _ Haction). cbv zeta.
  unfold on_message. rewrite Hprints, Hrecipient. simpl.
  destruct (clients st !! k) as [info|]; [|done].
  case_bool_decide; [|done]. by destruct (send_ok st (socket info)).
Qed.

Lemma deliver_live (info : client_info) :
  clients st !! k = Some info →
  now st - last_seen info ≤ HEARTBEAT_TIMEOUT →
  on_message client_id (JObj items) items st =
    if send_ok st (socket info) then
      Iteration st [Send (socket info) (JObj items) true] client_id Continue
    else
      Iteration (store_offline_message k (JObj items) st)
                [Send (socket info) (JObj items) false] client_id Continue.
Proof.
  intros Hk Hfresh. unfold on_message. rewrite Hprints, Hrecipient, Hk. simpl.
  by rewrite bool_decide_eq_true_2.
Qed.

Lemma deliver_offline :
  clients st !! k = None ∨
    (∃ info, clients st !! k = Some info ∧
             now st - last_seen info > HEARTBEAT_TIMEOUT) →
  on_message client_id (JObj items) items st =
    Iteration (store_offline_message k (JObj items) st) [] client_id Continue.
Proof.
  intros [Hk | (info & Hk & Hstale)]; unfold on_message;
    rewrite Hprints, Hrecipient, Hk; simpl; [done|].
  rewrite bool_decide_eq_false_2; [done | lia].
Qed.
End deliver.

Lemma store_offline_message_lookup recipient message st :
  offline_messages (store_offline_message recipient message st) !! recipient =
    Some (default [] (offline_messages st !! recipient) ++ [message]).
Proof. unfold store_offline_message. simpl. apply lookup_insert_eq. Qed.

(** C1, the failing input: [A] is registered on handle 0, [B] on handle 1
    and seen within the timeout, and a Deliver frame from [A] for [B] arrives
    whose payload is a lone surrogate.  The [print] of line 89 raises before
    the routing: no [send] is made and nothing is queued, the outer handler
    runs and the [finally] block deletes the entry of [A] and closes its
    socket. *)
Theorem unprintable_deliver_is_not_sent :
  let st := Scenario.two_online in
  let m := JObj Malformed.unprintable_deliver in
  threads st !! 0%nat = Some (JStr "A") ∧
  clients st !! KStr "B" = Some (ClientInfo 1 0) ∧
  now st - 0 ≤ HEARTBEAT_TIMEOUT ∧
  send_ok st 1 = true ∧
  (step (Recv 0 (Loaded m)) st).2 = [Close 0] ∧
  offline_messages (step (Recv 0 (Loaded m)) st).1 = offline_messages st ∧
  threads (step (Recv 0 (Loaded m)) st).1 !! 0%nat = None ∧
  clients (step (Recv 0 (Loaded m)) st).1 !! KStr "A" = None.
Proof. split_and!; by vm_compute. Qed.

(** C2, the failing inputs: [A] is registered on handle 0 and [B] is not
    registered.  A Deliver frame for [B] whose payload is a lone surrogate
    is not queued, because the [print] of line 89 raises; a Deliver frame
    whose recipient is a list, which has no registry entry either, is not
    queued, because the test of line 91 raises.  Both end the session of
    [A]. *)
Theorem unprintable_or_unhashable_deliver_is_not_queued :
  let st := Scenario.one_online in
  let m1 := JObj Malformed.unprintable_deliver in
  let m2 := JObj Malformed.list_recipient_deliver in
  clients st !! KStr "B" = None ∧
  offline_messages (step (Recv 0 (Loaded m1)) st).1 = ∅ ∧
  (step (Recv 0 (Loaded m1)) st).2 = [Close 0] ∧
  threads (step (Recv 0 (Loaded m1)) st).1 !! 0%nat = None ∧
  offline_messages (step (Recv 0 (Loaded m2)) st).1 = ∅ ∧
  (step (Recv 0 (Loaded m2)) st).2 = [Close 0] ∧
  threads (step (Recv 0 (Loaded m2)) st).1 !! 0%nat = None.
Proof. split_and!; by vm_compute. Qed.

(** X21: a Deliver frame whose [sender], [recipient] and [payload] can be
    printed and whose recipient is registered with
    [now - last_seen <= HEARTBEAT_TIMEOUT] makes the router call [send] once,
    on the recipient's registered socket and with that message; when the
    call succeeds the offline store is left as it was, so the message is in
    no offline queue. *)
Theorem live_recipient_is_sent_to
    (st : server) (c : sock) (client_id : json)
    (items : list (string * json)) (k : pykey) (info : client_info) :
  threads st !! c = Some client_id →
  eq_str (get items "action") "message" = true →
  message_prints items = true →
  hash_key (get items "recipient") = Some k →
  clients st !! k = Some info →
  now st - last_seen info ≤ HEARTBEAT_TIMEOUT →
  (step (Recv c (Loaded (JObj items))) st).2 =
    [Send (socket info) (JObj items) (send_ok st (socket info))] ∧
  (send_ok st (socket info) = true →
   offline_messages (step (Recv c (Loaded (JObj items))) st).1 =
     offline_messages st).
Proof.
  intros Hth Hact Hpr Hrcp Hk Hfresh.
  rewrite (deliver_step _ _ _ _ _ Hth Hact Hrcp Hpr). cbv zeta.
  rewrite (deliver_live _ _ _ _ Hrcp Hpr _ Hk Hfresh).
  by destruct (send_ok st (socket info)).
Qed.

Lemma live_recipient_is_sent_to_witness :
  let st := Scenario.two_online in
  let items := deliver_items "A" "B" 0 "hi" in
  (step (Recv 0 (Loaded (JObj items))) st).2 = [Send 1 (JObj items) true] ∧
  (true = true →
   offline_messages (step (Recv 0 (Loaded (JObj items))) st).1 =
     offline_messages st).
Proof.
  apply (live_recipient_is_sent_to Scenario.two_online 0 (JStr "A")
           (deliver_items "A" "B" 0 "hi") (KStr "B") (ClientInfo 1 0));
    [reflexivity | reflexivity | reflexivity | reflexivity
    | reflexivity | vm_compute; discriminate].
Defined.

(** X22: a Deliver frame whose [sender], [recipient] and [payload] can be
    printed and whose recipient is hashable and not registered, or registered
    with [now - last_seen > HEARTBEAT_TIMEOUT], is appended at the end of the
    recipient's offline queue, and the step makes no socket call at all. *)
Theorem offline_recipient_is_queued
    (st : server) (c : sock) (client_id : json)
    (items : list (string * json)) (k : pykey) :
  threads st !! c = Some client_id →
  eq_str (get items "action") "message" = true →
  message_prints items = true →
  hash_key (get items "recipient") = Some k →
  clients st !! k = None ∨
    (∃ info, clients st !! k = Some info ∧
             now st - last_seen info > HEARTBEAT_TIMEOUT) →
  (step (Recv c (Loaded (JObj items))) st).2 = [] ∧
  offline_messages (step (Recv c (Loaded (JObj items))) st).1 !! k =
    Some (default [] (offline_messages st !! k) ++ [JObj items]).
Proof.
  intros Hth Hact Hpr Hrcp Hk.
  rewrite (deliver_step _ _ _ _ _ Hth Hact Hrcp Hpr). cbv zeta.
  rewrite (deliver_offline _ _ _ _ Hrcp Hpr Hk). simpl.
  split; [done | apply lookup_insert_eq].
Qed.

Lemma offline_recipient_is_queued_witness :
  let st := Scenario.one_silent in
  let items := deliver_items "B" "A" 16 "hi" in
  (step (Recv 0 (Loaded (JObj items))) st).2 = [] ∧
  offline_messages (step (Recv 0 (Loaded (JObj items))) st).1 !! KStr "A" =
    Some [JObj items].
Proof.
  apply (offline_recipient_is_queued Scenario.one_silent 0 (JStr "A")
           (deliver_items "B" "A" 16 "hi") (KStr "A"));
    [reflexivity | reflexivity | reflexivity | reflexivity |].
  right. exists (ClientInfo 0 0). split; [reflexivity | vm_compute; reflexivity].
Defined.

(** C3, as stated, fails: [B] is registered on handle 1 and fresh, the peer
    of handle 1 is gone, a Deliver frame for [B] arrives on handle 0.  The
    [send] raises and the message is queued, and the entry of [B] is still
    in the registry afterwards. *)
Lemma failed_send_keeps_registry_entry :
  let st := Scenario.recipient_gone in
  let m := deliver_msg "A" "B" 0 "hi" in
  clients st !! KStr "B" = Some (ClientInfo 1 0) ∧
  now st - 0 ≤ HEARTBEAT_TIMEOUT ∧
  (step (Recv 0 (Loaded m)) st).2 = [Send 1 m false] ∧
  offline_messages (step (Recv 0 (Loaded m)) st).1 !! KStr "B" = Some [m] ∧
  ¬ (clients (step (Recv 0 (Loaded m)) st).1 !! KStr "B" = None).
Proof. by vm_compute. Qed.

(** C3, amended: when the [send] to a live recipient is reached (the
    [print] before it succeeded) and raises, the message is appended to the
    recipient's offline queue and the registry is left exactly as it was
    (the recipient's entry stays); the sender's thread keeps running with
    the same identity and no socket is closed. *)
Theorem failed_send_is_queued
    (st : server) (c : sock) (client_id : json)
    (items : list (string * json)) (k : pykey) (info : client_info) :
  threads st !! c = Some client_id →
  c ∉ closed st →
  eq_str (get items "action") "message" = true →
  message_prints items = true →
  hash_key (get items "recipient") = Some k →
  clients st !! k = Some info →
  now st - last_seen info ≤ HEARTBEAT_TIMEOUT →
  send_ok st (socket info) = false →
  let st' := (step (Recv c (Loaded (JObj items))) st).1 in
  offline_messages st' !! k =
    Some (default [] (offline_messages st !! k) ++ [JObj items]) ∧
  clients st' = clients st ∧
  threads st' !! c = Some client_id ∧
  closed st' = closed st.
Proof.
  intros Hth Hopen Hact Hpr Hrcp Hk Hfresh Hfail st'. subst st'.
  rewrite (deliver_step _ _ _ _ _ Hth Hact Hrcp Hpr). cbv zeta.
  rewrite (deliver_live _ _ _ _ Hrcp Hpr _ Hk Hfresh), Hfail. simpl.
  by rewrite !lookup_insert_eq.
Qed.

Lemma failed_send_is_queued_witness :
  let st := Scenario.recipient_gone in
  let items := deliver_items "A" "B" 0 "hi" in
  let st' := (step (Recv 0 (Loaded (JObj items))) st).1 in
  offline_messages st' !! KStr "B" = Some [JObj items] ∧
  clients st' = clients st ∧
  threads st' !! 0%nat = Some (JStr "A") ∧
  closed st' = closed st.
Proof.
  apply (failed_send_is_queued Scenario.recipient_gone 0 (JStr "A")
           (deliver_items "A" "B" 0 "hi") (KStr "B") (ClientInfo 1 0));
    [reflexivity | vm_compute; set_solver | reflexivity | reflexivity
    | reflexivity | reflexivity | vm_compute; discriminate | reflexivity].
Defined.

(** ** Registration *)

Lemma register_step st c client_id items k :
  threads st !! c = Some client_id →
  eq_str (get items "action") "register" = true →
  hash_key (get items "sender") = Some k →
  printable (get items "sender") = true →
  step (Recv c (Loaded (JObj items))) st =
    let it := on_register c items st in
    (with_threads (λ th, <[c := get items "sender"]> th) (it_state it),
     it_trace it).
Proof.
  intros Hth Hact Hk Hpr.
  rewrite (step_recv _ _ _ _ Hth).
  rewrite (loop_body_register _ _ _ _ Hact). cbv zeta.
  unfold on_register. by rewrite Hk, Hpr.
Qed.

Lemma on_register_trace st c items k :
  hash_key (get items "sender") = Some k →
  printable (get items "sender") = true →
  it_trace (on_register c items st) =
    (λ m, Send c m (send_ok st c)) <$> default [] (offline_messages st !! k).
Proof. intros Hk Hpr. unfold on_register. by rewrite Hk, Hpr. Qed.

Lemma on_register_state st c items k :
  hash_key (get items "sender") = Some k →
  printable (get items "sender") = true →
  it_state (on_register c items st) =
    with_offline (delete k)
      (with_clients (λ cl, <[k := ClientInfo c (now st)]> cl) st).
Proof. intros Hk Hpr. unfold on_register. by rewrite Hk, Hpr. Qed.






(** C8: a Register frame for an identifier whose registry entry is bound to
    another connection replaces the entry by the registering connection and
    the current time; the step closes no socket, and the thread of the old
    connection keeps running.  The identifier can be printed, as one that was
    registered before can. *)
Theorem register_replaces_entry
    (st : server) (c : sock) (client_id : json)
    (items : list (string * json)) (k : pykey) (old : client_info) :
  threads st !! c = Some client_id →
  c ∉ closed st →
  eq_str (get items "action") "register" = true →
  hash_key (get items "sender") = Some k →
  printable (get items "sender") = true →
  clients st !! k = Some old →
  socket old ≠ c →
  let res := step (Recv c (Loaded (JObj items))) st in
  clients res.1 !! k = Some (ClientInfo c (now st)) ∧
  closed res.1 = closed st ∧
  (∀ c', Close c' ∉ res.2) ∧
  threads res.1 !! socket old = threads st !! socket old.
Proof.
  intros Hth Hopen Hact Hk Hpr Hold Hne res. subst res.
  rewrite (register_step _ _ _ _ _ Hth Hact Hk Hpr). cbv zeta.
  rewrite (on_register_trace _ _ _ _ Hk Hpr), (on_register_state _ _ _ _ Hk Hpr).
  simpl. split_and!.
  - apply lookup_insert_eq.
  - done.
  - intros c' (m & Heq & _)%list_elem_of_fmap. discriminate.
  - by rewrite lookup_insert_ne.
Qed.

Lemma register_replaces_entry_witness :
  let st := Scenario.one_online_one_connected in
  let res := step (Recv 1 (Loaded (register_msg "A" 0))) st in
  clients res.1 !! KStr "A" = Some (ClientInfo 1 0) ∧
  closed res.1 = closed st ∧
  (∀ c', Close c' ∉ res.2) ∧
  threads res.1 !! 0%nat = threads st !! 0%nat.
Proof.
  apply (register_replaces_entry Scenario.one_online_one_connected 1 JNull
           (register_items "A" 0) (KStr "A") (ClientInfo 0 0));
    [reflexivity | vm_compute; set_solver | reflexivity | reflexivity
    | reflexivity | reflexivity | vm_compute; discriminate].
Defined.

(** ** The sweep *)

Lemma elem_of_to_remove st k :
  k ∈ to_remove st ↔
  ∃ info, clients st !! k = Some info ∧ stale (now st) info = true.
Proof.
  unfold to_remove. rewrite list_elem_of_fmap. split.
  - intros ([k' info] & -> & Hin). apply list_elem_of_filter in Hin as [Hst Hin].
    apply elem_of_map_to_list in Hin. eauto.
  - intros (info & Hk & Hst). exists (k, info). split; [done|].
    apply list_elem_of_filter. split; [done|]. by apply elem_of_map_to_list.
Qed.

Lemma NoDup_to_remove st : NoDup (to_remove st).
Proof.
  unfold to_remove.
  apply (sublist_NoDup _ (map_to_list (clients st)).*1).
  - apply NoDup_fst_map_to_list.
  - apply fmap_sublist, sublist_filter.
Qed.

Lemma evict_frame ids st :
  offline_messages (evict ids st).1 = offline_messages st ∧
  threads (evict ids st).1 = threads st ∧
  reset (evict ids st).1 = reset st ∧
  now (evict ids st).1 = now st ∧
  closed st ⊆ closed (evict ids st).1.
Proof.
  revert st. induction ids as [|k ids IH]; intros st; simpl; [done|].
  destruct (clients st !! k) as [info|]; [|done].
  specialize (IH (with_clients (delete k) (close_socket (socket info) st))).
  destruct (evict ids _) as [st2 tr]. simpl in *.
  destruct IH as (-> & -> & -> & -> & Hsub). split_and!; [done..|].
  set_solver.
Qed.

Section evict.
Implicit Types (ids : list pykey) (st : server).

Lemma all_registered_tail k ids st info :
  NoDup (k :: ids) →
  all_registered (k :: ids) st →
  all_registered ids (with_clients (delete k) (close_socket (socket info) st)).
Proof.
  intros Hnd Hall j Hj. simpl. apply NoDup_cons in Hnd as [Hk _].
  rewrite lookup_delete_ne; [| by intros ->].
  apply Hall. by right.
Qed.

Lemma evict_clients ids st j :
  NoDup ids →
  all_registered ids st →
  clients (evict ids st).1 !! j =
    if decide (j ∈ ids) then None else clients st !! j.
Proof.
  revert st. induction ids as [|k ids IH]; intros st Hnd Hall; cbn [evict].
  { by rewrite decide_False by apply not_elem_of_nil. }
  destruct (Hall k) as [info Hk]; [by left|]. rewrite Hk.
  specialize (IH _ (NoDup_cons_1_2 _ _ Hnd)
                (all_registered_tail _ _ _ info Hnd Hall)).
  destruct (evict ids _) as [st2 tr]. cbn [fst] in *. rewrite IH.
  cbn [with_clients clients close_socket].
  destruct (decide (j ∈ ids)) as [Hj|Hj].
  - rewrite decide_True; [done | by right].
  - destruct (decide (j = k)) as [->|Hne].
    + rewrite decide_True by (by left). apply lookup_delete_eq.
    + rewrite decide_False by (intros [?|?]%elem_of_cons; done).
      by rewrite lookup_delete_ne.
Qed.

Lemma evict_closes ids st k info :
  NoDup ids →
  all_registered ids st →
  k ∈ ids →
  clients st !! k = Some info →
  Close (socket info) ∈ (evict ids st).2 ∧
  socket info ∈ closed (evict ids st).1.
Proof.
  revert st. induction ids as [|k' ids IH]; intros st Hnd Hall Hin Hk; simpl.
  { by apply elem_of_nil in Hin. }
  destruct (Hall k') as [info' Hk']; [by left|]. rewrite Hk'.
  pose proof (evict_frame ids
    (with_clients (delete k') (close_socket (socket info') st))) as Hfr.
  specialize (IH (with_clients (delete k') (close_socket (socket info') st))
                (NoDup_cons_1_2 _ _ Hnd)
                (all_registered_tail _ _ _ info' Hnd Hall)).
  destruct (evict ids _) as [st2 tr]. simpl in *.
  destruct Hfr as (_ & _ & _ & _ & Hsub).
  apply elem_of_cons in Hin as [->|Hin].
  - assert (info' = info) as -> by congruence.
    split; [by left |].
    apply Hsub, elem_of_union. left. by apply elem_of_singleton.
  - apply NoDup_cons in Hnd as [Hnk _].
    assert (clients st !! k = delete k' (clients st) !! k) as Hne.
    { rewrite lookup_delete_ne; [done | by intros ->]. }
    rewrite Hne in Hk. destruct (IH Hin Hk) as [Htr Hcl].
    split; [by right | done].
Qed.
End evict.

Lemma to_remove_registered st : all_registered (to_remove st) st.
Proof. intros k (info & Hk & _)%elem_of_to_remove. eauto. Qed.

Lemma stale_true t info :
  stale t info = true ↔ t - last_seen info > HEARTBEAT_TIMEOUT.
Proof. unfold stale. by rewrite bool_decide_eq_true. Qed.

Lemma sweep_clients st j :
  clients (step Sweep st).1 !! j =
    match clients st !! j with
    | Some info => if stale (now st) info then None else Some info
    | None => None
    end.
Proof.
  simpl. unfold heartbeat_checker.
  rewrite evict_clients by auto using NoDup_to_remove, to_remove_registered.
  destruct (decide (j ∈ to_remove st)) as [Hj|Hj].
  - apply elem_of_to_remove in Hj as (info & -> & ->). done.
  - destruct (clients st !! j) as [info|] eqn:Hk; [|done].
    destruct (stale (now st) info) eqn:Hst; [|done].
    exfalso. apply Hj, elem_of_to_remove. eauto.
Qed.

(** C6: a sweep removes from the registry every entry whose [last_seen] is
    more than [HEARTBEAT_TIMEOUT] before the time of the sweep and calls
    [close] on its socket, whatever else happens; every entry that is in the
    registry when the sweep has completed was seen within the window. *)
Theorem sweep_evicts_stale_entries
    (st : server) (k : pykey) (info : client_info) :
  clients st !! k = Some info →
  now st - last_seen info > HEARTBEAT_TIMEOUT →
  let res := step Sweep st in
  clients res.1 !! k = None ∧
  Close (socket info) ∈ res.2 ∧
  socket info ∈ closed res.1 ∧
  (∀ k' info', clients res.1 !! k' = Some info' →
     clients st !! k' = Some info' ∧
     ¬ (now st - last_seen info' > HEARTBEAT_TIMEOUT)).
Proof.
  intros Hk Hstale res. subst res.
  assert (k ∈ to_remove st) as Hin.
  { apply elem_of_to_remove. exists info. by rewrite stale_true. }
  split_and!.
  - rewrite sweep_clients, Hk. by rewrite (proj2 (stale_true _ _) Hstale).
  - by apply (evict_closes (to_remove st) st k info);
      auto using NoDup_to_remove, to_remove_registered.
  - by apply (evict_closes (to_remove st) st k info);
      auto using NoDup_to_remove, to_remove_registered.
  - intros k' info'. rewrite sweep_clients.
    destruct (clients st !! k') as [i|]; [|done].
    destruct (stale (now st) i) eqn:Hst; [done|].
    intros [= ->]. split; [done|]. rewrite <- stale_true. by rewrite Hst.
Qed.

Lemma sweep_evicts_stale_entries_witness :
  let res := step Sweep Scenario.one_silent in
  clients res.1 !! KStr "A" = None ∧
  Close 0 ∈ res.2 ∧
  0%nat ∈ closed res.1 ∧
  (∀ k' info', clients res.1 !! k' = Some info' →
     clients Scenario.one_silent !! k' = Some info' ∧
     ¬ (now Scenario.one_silent - last_seen info' > HEARTBEAT_TIMEOUT)).
Proof.
  apply (sweep_evicts_stale_entries Scenario.one_silent (KStr "A")
           (ClientInfo 0 0)); [reflexivity | vm_compute; reflexivity].
Defined.

(** ** Staleness of registry entries *)

Lemma elapsed_nonneg evs : 0 ≤ elapsed evs.
Proof. induction evs as [|[] evs IH]; simpl; lia. Qed.

Lemma seen_within_insert bound st k c :
  0 ≤ bound →
  seen_within bound st →
  ∀ k' info,
    <[k := ClientInfo c (now st)]> (clients st) !! k' = Some info →
    now st - last_seen info ≤ bound.
Proof.
  intros Hb Hinv k' info. rewrite lookup_insert. case_decide.
  - intros [= <-]. simpl. lia.
  - apply Hinv.
Qed.

Lemma loop_body_seen_within bound c client_id r st :
  0 ≤ bound →
  seen_within bound st →
  seen_within bound (it_state (loop_body c client_id r st)).
Proof.
  intros Hb Hinv.
  destruct r as [| | | | |[| | | | |items]]; try done. simpl.
  unfold on_register, on_heartbeat, on_message, retrieve_offline_messages.
  repeat case_match; try done; simplify_eq/=.
  all: intros k' info; apply (seen_within_insert _ _ _ _ Hb Hinv).
Qed.

Lemma finally_seen_within bound c client_id st :
  seen_within bound st →
  seen_within bound (finally c client_id st).1.
Proof.
  intros Hinv. unfold finally. repeat case_match; try done.
  all: intros k' info; simpl; rewrite lookup_delete; case_decide; [done|].
  all: apply Hinv.
Qed.

Lemma step_seen_within bound e st :
  0 ≤ bound →
  seen_within bound st →
  seen_within (bound + elapsed [e]) (step e st).1.
Proof.
  intros Hb Hinv. destruct e as [|c r| |d|c]; simpl;
    rewrite ?Z.add_0_r; try done.
  - destruct (threads st !! c) as [client_id|]; [|done].
    pose proof (loop_body_seen_within bound c client_id r st Hb Hinv) as Hit.
    destruct (it_flow _); [done| |].
    all: pose proof (finally_seen_within bound c
           (it_client_id (loop_body c client_id r st)) _ Hit) as Hfin.
    all: by destruct (finally _ _ _).
  - intros k info Hk.
    pose proof (sweep_clients st k) as Hsw. simpl in Hsw. rewrite Hk in Hsw.
    destruct (evict_frame (to_remove st) st) as (_ & _ & _ & Hnow & _).
    unfold heartbeat_checker. rewrite Hnow.
    destruct (clients st !! k) as [i|] eqn:Hi; [|done].
    destruct (stale (now st) i); [done|]. simplify_eq. by apply (Hinv k).
  - intros k info Hk. simpl in *. specialize (Hinv k info Hk). lia.
Qed.

Lemma run_seen_within bound evs st :
  0 ≤ bound →
  seen_within bound st →
  seen_within (bound + elapsed evs) (run evs st).
Proof.
  revert bound st. induction evs as [|e evs IH]; intros bound st Hb Hinv.
  { simpl. by rewrite Z.add_0_r. }
  change (run (e :: evs) st) with (run evs (step e st).1).
  replace (bound + elapsed (e :: evs))
    with ((bound + elapsed [e]) + elapsed evs)
    by (destruct e; simpl; lia).
  apply IH; [| by apply step_seen_within].
  pose proof (elapsed_nonneg [e]). lia.
Qed.

Lemma sweep_seen_within st : seen_within HEARTBEAT_TIMEOUT (step Sweep st).1.
Proof.
  intros k info Hk. rewrite sweep_clients in Hk.
  destruct (evict_frame (to_remove st) st) as (_ & _ & _ & Hnow & _).
  simpl. unfold heartbeat_checker. rewrite Hnow.
  destruct (clients st !! k) as [i|]; [|done].
  destruct (stale (now st) i) eqn:Hst; [done|]. simplify_eq.
  apply not_true_iff_false in Hst. rewrite stale_true in Hst. lia.
Qed.

(** C5, as stated, fails.  A registered identifier stays in the registry
    while time passes: [A] registered at time 0 is still there at time 16.
    And an identifier can stay in the registry after its connection was
    closed: handle 0 registers [A], then [B], and reaches end of stream; the
    entry of [A] still names handle 0, which is closed. *)
Lemma registry_entry_stale_or_closed :
  reachable Scenario.one_silent ∧
  (∃ info, clients Scenario.one_silent !! KStr "A" = Some info ∧
           ¬ (now Scenario.one_silent - last_seen info ≤ HEARTBEAT_TIMEOUT)) ∧
  reachable Scenario.renamed_then_closed ∧
  (∃ info, clients Scenario.renamed_then_closed !! KStr "A" = Some info ∧
           socket info ∈ closed Scenario.renamed_then_closed).
Proof.
  split_and!.
  - by exists 0, [Accept; Recv 0 (Loaded (register_msg "A" 0)); Tick 16].
  - exists (ClientInfo 0 0). split; [done | by vm_compute].
  - by exists 0, [Accept; Recv 0 (Loaded (register_msg "A" 0));
                  Recv 0 (Loaded (register_msg "B" 0)); Recv 0 RecvEmpty].
  - exists (ClientInfo 0 0). split; [done | vm_compute; set_solver].
Qed.

(** C5, amended: in every state reached after a sweep, each identifier in
    the registry has [now - last_seen] at most [HEARTBEAT_TIMEOUT] plus the
    time that passed since that sweep; right after a sweep ([evs] empty) every
    entry is within the window. *)
Theorem staleness_bounded_since_sweep
    (st : server) (evs : list event) (k : pykey) (info : client_info) :
  let st' := run evs (step Sweep st).1 in
  clients st' !! k = Some info →
  now st' - last_seen info ≤ HEARTBEAT_TIMEOUT + elapsed evs.
Proof.
  intros st' Hk.
  assert (0 ≤ HEARTBEAT_TIMEOUT) as Hb by (unfold HEARTBEAT_TIMEOUT; lia).
  exact (run_seen_within _ evs _ Hb (sweep_seen_within st) k info Hk).
Qed.

Lemma staleness_bounded_since_sweep_witness :
  let st' := run [Tick 4; Recv 1 (Loaded (register_msg "B" 0)); Tick 2]
               (step Sweep Scenario.one_online_one_connected).1 in
  now st' - 0 ≤ HEARTBEAT_TIMEOUT + 6.
Proof.
  apply (staleness_bounded_since_sweep Scenario.one_online_one_connected
           [Tick 4; Recv 1 (Loaded (register_msg "B" 0)); Tick 2]
           (KStr "A") (ClientInfo 0 0)).
  reflexivity.
Defined.

(** ** Closing a session *)

(** C7, as stated, fails: [A] registered on handle 0 and then again on
    handle 1, so the entry of [A] names handle 1; when handle 0 reaches end
    of stream its thread deletes that entry. *)
Lemma close_removes_entry_of_newer_connection :
  let st := Scenario.reconnected in
  threads st !! 0%nat = Some (JStr "A") ∧
  clients st !! KStr "A" = Some (ClientInfo 1 0) ∧
  ¬ (clients (step (Recv 0 RecvEmpty) st).1 !! KStr "A" = clients st !! KStr "A").
Proof. by vm_compute. Qed.

Lemma loop_body_threads c client_id r st :
  threads (it_state (loop_body c client_id r st)) = threads st.
Proof.
  destruct r as [| | | | |[| | | | |items]]; try done. simpl.
  unfold on_register, on_heartbeat, on_message, retrieve_offline_messages.
  by repeat case_match.
Qed.

Lemma loop_body_client_id c client_id r st :
  printable client_id = true →
  is_Some (hash_key client_id) →
  it_flow (loop_body c client_id r st) = Continue →
  printable (it_client_id (loop_body c client_id r st)) = true ∧
  is_Some (hash_key (it_client_id (loop_body c client_id r st))).
Proof.
  intros Hpr Hk.
  destruct r as [| | | | |[| | | | |items]]; try done. simpl.
  unfold on_register, on_heartbeat, on_message, retrieve_offline_messages.
  repeat case_match; try done; simplify_eq/=; eauto.
Qed.

Lemma finally_threads c client_id st :
  threads (finally c client_id st).1 = threads st.
Proof. unfold finally. by repeat case_match. Qed.

Lemma step_threads_wf e st : threads_wf st → threads_wf (step e st).1.
Proof.
  intros Hwf. destruct e as [|c r| |d|c]; simpl; try done.
  - intros c' id. simpl. rewrite lookup_insert. case_decide; [|apply Hwf].
    intros [= <-]. split; [done | by eexists].
  - destruct (threads st !! c) as [client_id|] eqn:Hth; [|done].
    destruct (Hwf c client_id Hth) as [Hpr Hk].
    pose proof (loop_body_threads c client_id r st) as Hthr.
    pose proof (loop_body_client_id c client_id r st Hpr Hk) as Hid.
    destruct (it_flow _).
    + intros c' id. simpl. rewrite Hthr, lookup_insert.
      case_decide; [|apply Hwf]. intros [= <-]. by apply Hid.
    + pose proof (finally_threads c
        (it_client_id (loop_body c client_id r st))
        (it_state (loop_body c client_id r st))) as Hfin.
      destruct (finally _ _ _) as [st' tr]. simpl in *.
      intros c' id. simpl. rewrite Hfin, Hthr, lookup_delete.
      case_decide; [done | apply Hwf].
    + pose proof (finally_threads c
        (it_client_id (loop_body c client_id r st))
        (it_state (loop_body c client_id r st))) as Hfin.
      destruct (finally _ _ _) as [st' tr]. simpl in *.
      intros c' id. simpl. rewrite Hfin, Hthr, lookup_delete.
      case_decide; [done | apply Hwf].
  - intros c' id. unfold heartbeat_checker.
    destruct (evict_frame (to_remove st) st) as (_ & -> & _).
    apply Hwf.
Qed.

Lemma reachable_threads_wf st : reachable st → threads_wf st.
Proof.
  intros (t0 & evs & ->).
  assert (threads_wf (init t0)) as Hinit by (by intros c id; simpl).
  revert Hinit. generalize (init t0).
  induction evs as [|e evs IH]; intros s Hs; [done|].
  simpl. by apply IH, step_threads_wf.
Qed.

(** C7, amended: when the read loop of a session ends by end of stream or a
    read error (an evicted session ends this way once a [recv] on its closed
    handle raises) and its identifier is true (not empty), the registry
    entry of that identifier is deleted, whichever connection the entry
    names; with a false identifier the registry is left as it was.  All other
    registry entries and the offline store are unchanged, the thread ends and
    the socket is closed. *)
Theorem close_deletes_own_identifier
    (st : server) (c : sock) (client_id : json) (r : recv_result) :
  reachable st →
  threads st !! c = Some client_id →
  r = RecvEmpty ∨ r = RecvRaises →
  let res := step (Recv c r) st in
  ∃ k, hash_key client_id = Some k ∧
       clients res.1 =
         (if truthy client_id then delete k (clients st) else clients st) ∧
       offline_messages res.1 = offline_messages st ∧
       threads res.1 !! c = None ∧
       c ∈ closed res.1 ∧
       res.2 = [Close c].
Proof.
  intros Hreach Hth Hr res. subst res.
  destruct (reachable_threads_wf st Hreach c client_id Hth) as [Hpr [k Hk]].
  exists k. split; [done|]. rewrite (step_recv _ _ _ _ Hth).
  destruct Hr as [-> | ->]; simpl; unfold finally; rewrite Hk, Hpr.
  all: destruct (truthy client_id); simpl.
  all: split_and!; try done; try apply lookup_delete_eq.
  all: apply elem_of_union; left; by apply elem_of_singleton.
Qed.

Lemma close_deletes_own_identifier_witness :
  let st := Scenario.reconnected in
  let res := step (Recv 0 RecvEmpty) st in
  ∃ k, hash_key (JStr "A") = Some k ∧
       clients res.1 = delete k (clients st) ∧
       offline_messages res.1 = offline_messages st ∧
       threads res.1 !! 0%nat = None ∧
       0%nat ∈ closed res.1 ∧
       res.2 = [Close 0].
Proof.
  apply (close_deletes_own_identifier Scenario.reconnected 0 (JStr "A")
           RecvEmpty); [| reflexivity | by left].
  by exists 0, [Accept; Accept; Recv 0 (Loaded (register_msg "A" 0));
                Recv 1 (Loaded (register_msg "A" 0))].
Defined.

(** ** Input that is not a frame *)

Lemma with_threads_same st c client_id :
  threads st !! c = Some client_id →
  with_threads (λ th, <[c := client_id]> th) st = st.
Proof.
  intros Hth. destruct st. unfold with_threads. simpl in *.
  by rewrite insert_id.
Qed.

(** X14: Text on which [json.loads] raises [JSONDecodeError], and a JSON
    object whose [action] can be printed and is none of the three known
    ones, change nothing: the thread keeps running with the same identity,
    no socket call is made, and the state is the same. *)
Lemma invalid_json_and_unknown_action_are_ignored
    (st : server) (c : sock) (client_id : json) (r : recv_result) :
  threads st !! c = Some client_id →
  r = JSONDecodeError ∨
    (∃ items, r = Loaded (JObj items) ∧
       eq_str (get items "action") "register" = false ∧
       eq_str (get items "action") "heartbeat" = false ∧
       eq_str (get items "action") "message" = false ∧
       printable (get items "action") = true) →
  step (Recv c r) st = (st, []).
Proof.
  intros Hth Hr. rewrite (step_recv _ _ _ _ Hth).
  destruct Hr as [-> | (items & -> & H1 & H2 & H3 & H4)]; simpl.
  - by rewrite with_threads_same.
  - rewrite H1, H2, H3, H4. simpl. by rewrite with_threads_same.
Qed.

(** C9, the failing input: [A] is registered on handle 0 and a chunk that is
    not UTF-8 arrives on it.  [.decode()] raises outside the inner [try], the
    outer handler runs, and the [finally] block deletes the entry of [A] and
    closes the socket.  A chunk that is JSON but no object (here an empty
    list) ends the same way. *)
Theorem undecodable_chunk_closes_session :
  let st := Scenario.one_online in
  threads st !! 0%nat = Some (JStr "A") ∧
  clients st !! KStr "A" = Some (ClientInfo 0 0) ∧
  step (Recv 0 DecodeRaises) st = step (Recv 0 (Loaded (JArr []))) st ∧
  (step (Recv 0 DecodeRaises) st).2 = [Close 0] ∧
  threads (step (Recv 0 DecodeRaises) st).1 !! 0%nat = None ∧
  clients (step (Recv 0 DecodeRaises) st).1 !! KStr "A" = None ∧
  0%nat ∈ closed (step (Recv 0 DecodeRaises) st).1.
Proof. split_and!; done. Qed.

(** ** Heartbeats *)

(** X12: A Heartbeat frame refreshes the entry of the identifier held by the
    thread, when there is one; the frame's own [sender] plays no part. *)
Lemma heartbeat_touches_own_identifier
    (st : server) (c : sock) (client_id : json)
    (items : list (string * json)) (k : pykey) :
  threads st !! c = Some client_id →
  c ∉ closed st →
  eq_str (get items "action") "heartbeat" = true →
  hash_key client_id = Some k →
  let res := step (Recv c (Loaded (JObj items))) st in
  clients res.1 =
    match clients st !! k with
    | Some info => <[k := ClientInfo (socket info) (now st)]> (clients st)
    | None => clients st
    end ∧
  threads res.1 !! c = Some client_id ∧
  res.2 = [].
Proof.
  intros Hth Hopen Hact Hk res. subst res.
  rewrite (step_recv _ _ _ _ Hth).
  rewrite (loop_body_heartbeat _ _ _ _ Hact). cbv zeta.
  unfold on_heartbeat. rewrite Hk.
  destruct (clients st !! k); simpl; by rewrite lookup_insert_eq.
Qed.

(** C10, the failing input: handle 0 sent a Register frame without [sender],
    so the registry has an entry under [None]; handle 1 has sent no Register
    frame, its [client_id] is [None] too, and its Heartbeat frame refreshes
    that entry. *)
Theorem heartbeat_before_register_touches_none_entry :
  let st := Scenario.anonymous_registered in
  let res := step (Recv 1 (Loaded (heartbeat_msg "B" 3))) st in
  threads st !! 1%nat = Some JNull ∧
  clients st !! KNone = Some (ClientInfo 0 0) ∧
  clients res.1 !! KNone = Some (ClientInfo 0 3) ∧
  clients res.1 ≠ clients st.
Proof.
  split_and!; done.
Qed.

(** * Further properties of the server *)

(** ** The offline store *)

Lemma store_offline_message_other recipient message st k :
  k ≠ recipient →
  offline_messages (store_offline_message recipient message st) !! k =
    offline_messages st !! k.
Proof. intros Hne. unfold store_offline_message. simpl. by rewrite lookup_insert_ne. Qed.

Lemma store_all_queue l st recipient :
  default [] (offline_messages (store_all l st) !! recipient) =
    default [] (offline_messages st !! recipient) ++ messages_for recipient l.
Proof.
  revert st. induction l as [|[k m] l IH]; intros st.
  { unfold messages_for. simpl. by rewrite app_nil_r. }
  change (store_all ((k, m) :: l) st)
    with (store_all l (store_offline_message k m st)).
  rewrite IH. unfold messages_for.
  destruct (decide (k = recipient)) as [->|Hne].
  - rewrite store_offline_message_lookup, filter_cons_True by done.
    simpl. by rewrite <- app_assoc.
  - rewrite store_offline_message_other, filter_cons_False by done. done.
Qed.

(** X5: Messages stored for several recipients, in any interleaving, are kept in
    one queue for each recipient in the order in which they were stored:
    draining a recipient returns what its queue held before, followed by the
    messages stored for it, in order, and removes its key. *)
Theorem drain_returns_stored_in_order
    (l : list (pykey * json)) (st : server) (recipient : pykey) :
  (retrieve_offline_messages recipient (store_all l st)).1 =
    default [] (offline_messages st !! recipient) ++ messages_for recipient l ∧
  offline_messages (retrieve_offline_messages recipient (store_all l st)).2
    !! recipient = None ∧
  ∀ k, k ≠ recipient →
    offline_messages (retrieve_offline_messages recipient (store_all l st)).2 !! k
    = offline_messages (store_all l st) !! k.
Proof.
  unfold retrieve_offline_messages. simpl. split_and!.
  - apply store_all_queue.
  - apply lookup_delete_eq.
  - intros k Hne. by rewrite lookup_delete_ne.
Qed.

(** ** What the store holds and what the server sends *)

Lemma store_wf_store k m st :
  store_wf st → filed_under k m → store_wf (store_offline_message k m st).
Proof.
  intros Hwf Hm k' q. unfold store_offline_message. simpl.
  rewrite lookup_insert. case_decide as Hk.
  - subst k'. intros [= <-]. split.
    + by intros [_ ?]%app_eq_nil.
    + intros m' [Hin | ->%list_elem_of_singleton]%elem_of_app; [|done].
      destruct (offline_messages st !! k) as [q0|] eqn:Hq; simpl in Hin.
      * by apply (Hwf k q0).
      * by apply elem_of_nil in Hin.
  - apply Hwf.
Qed.

Lemma store_wf_delete k st :
  store_wf st → store_wf (with_offline (delete k) st).
Proof.
  intros Hwf k' q. simpl. rewrite lookup_delete. case_decide; [done|]. apply Hwf.
Qed.

Lemma store_wf_offline st st' :
  offline_messages st' = offline_messages st → store_wf st → store_wf st'.
Proof. intros Heq Hwf k q. rewrite Heq. apply Hwf. Qed.

Lemma loop_body_store_wf c client_id r st :
  store_wf st →
  store_wf (it_state (loop_body c client_id r st)) ∧
  sends_to_registered (it_state (loop_body c client_id r st))
                      (it_trace (loop_body c client_id r st)).
Proof.
  intros Hwf.
  assert (∀ st', sends_to_registered st' []) as Hnil.
  { intros st' c' m ok Hin. by apply elem_of_nil in Hin. }
  destruct r as [| | | | |[| | | | |items]]; try (split; [done | apply Hnil]).
  simpl.
  destruct (eq_str (get items "action") "register") eqn:Hreg;
    [|destruct (eq_str (get items "action") "heartbeat") eqn:Hhb;
      [|destruct (eq_str (get items "action") "message") eqn:Hmsg]].
  - unfold on_register.
    destruct (hash_key (get items "sender")) as [k|] eqn:Hk;
      [| split; [done | apply Hnil]].
    destruct (printable (get items "sender"));
      [| split; [by apply (store_wf_offline st) | apply Hnil]].
    simpl. split.
    + apply store_wf_delete. by apply (store_wf_offline st).
    + intros c' m ok (m' & [= -> -> _] & Hin)%list_elem_of_fmap.
      exists k, (ClientInfo c (now st)). split_and!.
      * destruct (offline_messages st !! k) as [q|] eqn:Hq; simpl in Hin.
        -- by apply (Hwf k q).
        -- by apply elem_of_nil in Hin.
      * apply lookup_insert_eq.
      * done.
  - unfold on_heartbeat.
    destruct (hash_key client_id) as [k|]; [| split; [done | apply Hnil]].
    destruct (clients st !! k); split; try done; apply Hnil.
  - unfold on_message.
    destruct (message_prints items) eqn:Hpr; simpl;
      [| split; [done | apply Hnil]].
    destruct (hash_key (get items "recipient")) as [k|] eqn:Hk;
      [| split; [done | apply Hnil]].
    assert (filed_under k (JObj items)) as Hfiled by (by exists items).
    destruct (clients st !! k) as [info|] eqn:Hinfo;
      [case_bool_decide; [destruct (send_ok st (socket info))|]|]; simpl.
    all: split; [try done; by apply store_wf_store | try apply Hnil].
    all: intros c' m ok [= -> -> _]%list_elem_of_singleton.
    all: by exists k, info.
  - destruct (printable (get items "action")); split; try done; apply Hnil.
Qed.

Lemma finally_offline c client_id st :
  offline_messages (finally c client_id st).1 = offline_messages st.
Proof. unfold finally. by repeat case_match. Qed.

Lemma finally_trace c client_id st e :
  e ∈ (finally c client_id st).2 → e = Close c.
Proof.
  unfold finally. repeat case_match; simpl.
  all: try by intros ?%list_elem_of_singleton.
  all: by intros ?%elem_of_nil.
Qed.

Lemma evict_trace ids st e :
  e ∈ (evict ids st).2 → ∃ c, e = Close c.
Proof.
  revert st. induction ids as [|k ids IH]; intros st; simpl.
  { by intros ?%elem_of_nil. }
  destruct (clients st !! k) as [info|] eqn:Hk; [| by intros ?%elem_of_nil].
  specialize (IH (with_clients (delete k) (close_socket (socket info) st))).
  destruct (evict ids _) as [st2 tr]. simpl in *.
  intros [-> | Hin]%elem_of_cons; eauto.
Qed.

Lemma step_store_wf e st : store_wf st → store_wf (step e st).1.
Proof.
  intros Hwf. destruct e as [|c r| |d|c]; simpl; try done.
  - destruct (threads st !! c) as [client_id|]; [|done].
    destruct (loop_body_store_wf c client_id r st Hwf) as [Hit _].
    destruct (it_flow _); [done| |].
    all: pose proof (finally_offline c
           (it_client_id (loop_body c client_id r st))
           (it_state (loop_body c client_id r st))) as Hfin.
    all: destruct (finally _ _ _) as [st' tr]; simpl in *.
    all: by apply (store_wf_offline _ _ Hfin).
  - destruct (evict_frame (to_remove st) st) as (Hoff & _).
    by apply (store_wf_offline st).
Qed.

Lemma reachable_store_wf st : reachable st → store_wf st.
Proof.
  intros (t0 & evs & ->).
  assert (store_wf (init t0)) as Hinit by (by intros k q; simpl).
  revert Hinit. generalize (init t0).
  induction evs as [|e evs IH]; intros s Hs; [done|].
  simpl. by apply IH, step_store_wf.
Qed.

Lemma loop_body_leave_trace c client_id r st :
  it_flow (loop_body c client_id r st) ≠ Continue →
  it_trace (loop_body c client_id r st) = [].
Proof.
  destruct r as [| | | | |[| | | | |items]]; simpl; try done.
  unfold on_register, on_heartbeat, on_message, retrieve_offline_messages.
  repeat case_match; simpl; done.
Qed.

Lemma step_sends e st :
  store_wf st → sends_to_registered (step e st).1 (step e st).2.
Proof.
  intros Hwf c0 m ok Hin. destruct e as [|c r| |d|c]; simpl in *.
  1,4,5: by apply elem_of_nil in Hin.
  - destruct (threads st !! c) as [client_id|]; [| by apply elem_of_nil in Hin].
    destruct (loop_body_store_wf c client_id r st Hwf) as [_ Hsends].
    pose proof (loop_body_leave_trace c client_id r st) as Htr.
    destruct (it_flow _) eqn:Hflow; [exact (Hsends c0 m ok Hin)| |].
    all: rewrite Htr in Hin by done.
    all: pose proof (finally_trace c
           (it_client_id (loop_body c client_id r st))
           (it_state (loop_body c client_id r st)) (Send c0 m ok)) as Hfin.
    all: destruct (finally _ _ _) as [st' tr]; simpl in *.
    all: by specialize (Hfin Hin).
  - by apply evict_trace in Hin as (? & [=]).
Qed.

(** X3: In every reachable state the offline store has no empty queue, and every
    queued message is a Deliver frame that can be printed and whose
    [recipient] is the key of the queue that holds it. *)
Theorem offline_store_files_under_recipient
    (st : server) (k : pykey) (q : list json) :
  reachable st →
  offline_messages st !! k = Some q →
  q ≠ [] ∧ ∀ m, m ∈ q → filed_under k m.
Proof. intros Hreach. by apply reachable_store_wf. Qed.

Lemma offline_store_files_under_recipient_witness :
  [deliver_msg "A" "B" 0 "hi"] ≠ [] ∧
  ∀ m, m ∈ [deliver_msg "A" "B" 0 "hi"] → filed_under (KStr "B") m.
Proof.
  apply (offline_store_files_under_recipient Session.one_queued (KStr "B")).
  - by exists 0, [Accept; Recv 0 (Loaded (deliver_msg "A" "B" 0 "hi"))].
  - reflexivity.
Defined.

(** X2: Whatever the event, every [send] the server makes from a reachable state
    carries a Deliver frame, and when the step is over the registry binds the
    frame's [recipient] to the socket of the [send]: no message goes to a
    connection that is not registered under the name the message is for. *)
Theorem sends_go_to_registered_recipient
    (st : server) (e : event) (c : sock) (m : json) (ok : bool) :
  reachable st →
  Send c m ok ∈ (step e st).2 →
  ∃ k info, filed_under k m ∧
            clients (step e st).1 !! k = Some info ∧ socket info = c.
Proof.
  intros Hreach Hin.
  by apply (step_sends e st (reachable_store_wf st Hreach) c m ok).
Qed.

Lemma sends_go_to_registered_recipient_witness :
  ∃ k info,
    filed_under k (deliver_msg "A" "B" 0 "hi") ∧
    clients (step (Recv 1 (Loaded (register_msg "B" 0)))
               Session.one_queued_one_connected).1 !! k = Some info ∧
    socket info = 1%nat.
Proof.
  apply (sends_go_to_registered_recipient Session.one_queued_one_connected
           (Recv 1 (Loaded (register_msg "B" 0))) 1
           (deliver_msg "A" "B" 0 "hi") true).
  - by exists 0, [Accept; Recv 0 (Loaded (deliver_msg "A" "B" 0 "hi")); Accept].
  - vm_compute. left.
Defined.

(** X20: Every message the server sends, received by [receive_messages] of the
    client as one chunk, is printed with the [sender] and the [payload] of the
    frame, and the client's loop goes on. *)
Theorem client_displays_what_server_sends
    (st : server) (e : event) (c : sock) (m : json) (ok : bool) :
  reachable st →
  Send c m ok ∈ (step e st).2 →
  ∃ items, m = JObj items ∧
    receive_messages (Loaded m) =
      (Some (get items "sender", get items "payload"), Continue).
Proof.
  intros Hreach Hin.
  destruct (step_sends e st (reachable_store_wf st Hreach) c m ok Hin)
    as (k & info & (items & -> & Hact & _ & Hpr) & _).
  exists items. split; [done|]. simpl. rewrite Hact.
  unfold message_prints in Hpr.
  apply andb_true_iff in Hpr as [[Hs _]%andb_true_iff Hp].
  by rewrite Hs, Hp.
Qed.

Lemma client_displays_what_server_sends_witness :
  ∃ items, deliver_msg "A" "B" 0 "hi" = JObj items ∧
    receive_messages (Loaded (deliver_msg "A" "B" 0 "hi")) =
      (Some (get items "sender", get items "payload"), Continue).
Proof.
  apply (client_displays_what_server_sends Scenario.two_online
           (Recv 0 (Loaded (deliver_msg "A" "B" 0 "hi"))) 1
           (deliver_msg "A" "B" 0 "hi") true).
  - by exists 0, [Accept; Accept; Recv 0 (Loaded (register_msg "A" 0));
                  Recv 1 (Loaded (register_msg "B" 0))].
  - vm_compute. left.
Defined.

(** ** Routing *)

(** X1: A Deliver frame whose [sender], [recipient] and [payload] can be
    printed and whose [recipient] is hashable is either handed to exactly one
    [send] that succeeds, and then the store is untouched, or no [send]
    succeeds and the frame is appended to the queue of the recipient; never
    both, never neither.  The registry is the same afterwards. *)
Theorem deliver_sent_xor_queued
    (st : server) (c : sock) (client_id : json)
    (items : list (string * json)) (k : pykey) :
  threads st !! c = Some client_id →
  eq_str (get items "action") "message" = true →
  message_prints items = true →
  hash_key (get items "recipient") = Some k →
  let res := step (Recv c (Loaded (JObj items))) st in
  clients res.1 = clients st ∧
  ((∃ c', res.2 = [Send c' (JObj items) true] ∧
          offline_messages res.1 = offline_messages st) ∨
   ((∀ c' m, Send c' m true ∉ res.2) ∧
    offline_messages res.1 =
      <[k := default [] (offline_messages st !! k) ++ [JObj items]]>
        (offline_messages st))).
Proof.
  intros Hth Hact Hpr Hk res. subst res.
  rewrite (deliver_step _ _ _ _ _ Hth Hact Hk Hpr). cbv zeta.
  unfold on_message. rewrite Hpr, Hk. simpl.
  destruct (clients st !! k) as [info|];
    [case_bool_decide; [destruct (send_ok st (socket info))|]|]; simpl.
  1: split; [done|]; left; by exists (socket info).
  all: split; [done|]; right; split; [|done].
  all: intros c' m Hin.
  - by apply list_elem_of_singleton in Hin.
  - by apply elem_of_nil in Hin.
  - by apply elem_of_nil in Hin.
Qed.

Lemma deliver_sent_xor_queued_witness :
  let items := deliver_items "A" "B" 0 "hi" in
  let res := step (Recv 0 (Loaded (JObj items))) Scenario.recipient_gone in
  clients res.1 = clients Scenario.recipient_gone ∧
  ((∃ c', res.2 = [Send c' (JObj items) true] ∧
          offline_messages res.1 = offline_messages Scenario.recipient_gone) ∨
   ((∀ c' m, Send c' m true ∉ res.2) ∧
    offline_messages res.1 =
      <[KStr "B" := default [] (offline_messages Scenario.recipient_gone
                                  !! KStr "B") ++ [JObj items]]>
        (offline_messages Scenario.recipient_gone))).
Proof.
  apply (deliver_sent_xor_queued Scenario.recipient_gone 0 (JStr "A")
           (deliver_items "A" "B" 0 "hi") (KStr "B"));
    [reflexivity | reflexivity | reflexivity | reflexivity].
Defined.

(** X17: The router never looks at who is sending: a Deliver frame whose
    [sender], [recipient] and [payload] can be printed and whose [recipient]
    is hashable has the same effect on whichever connection it arrives,
    registered or not. *)
Theorem deliver_ignores_session_identity
    (st : server) (c1 c2 : sock) (id1 id2 : json)
    (items : list (string * json)) (k : pykey) :
  threads st !! c1 = Some id1 →
  threads st !! c2 = Some id2 →
  eq_str (get items "action") "message" = true →
  message_prints items = true →
  hash_key (get items "recipient") = Some k →
  step (Recv c1 (Loaded (JObj items))) st =
    step (Recv c2 (Loaded (JObj items))) st.
Proof.
  intros Hth1 Hth2 Hact Hpr Hk.
  rewrite (deliver_step _ _ _ _ _ Hth1 Hact Hk Hpr).
  rewrite (deliver_step _ _ _ _ _ Hth2 Hact Hk Hpr). cbv zeta.
  unfold on_message. rewrite Hpr, Hk. simpl.
  destruct (clients st !! k) as [info|];
    [case_bool_decide; [destruct (send_ok st (socket info))|]|]; simpl.
  all: by rewrite !with_threads_same.
Qed.

Lemma deliver_ignores_session_identity_witness :
  step (Recv 0 (Loaded (deliver_msg "A" "B" 0 "hi")))
       Scenario.one_online_one_connected =
  step (Recv 1 (Loaded (deliver_msg "A" "B" 0 "hi")))
       Scenario.one_online_one_connected.
Proof.
  apply (deliver_ignores_session_identity Scenario.one_online_one_connected
           0 1 (JStr "A") JNull (deliver_items "A" "B" 0 "hi") (KStr "B"));
    [reflexivity | reflexivity | reflexivity | reflexivity | reflexivity].
Defined.

(** ** Input that ends a session *)

Lemma fatal_loop_body c client_id r st :
  fatal r → loop_body c client_id r st = Iteration st [] client_id Raised.
Proof.
  destruct r as [| | | | |[| | | | |items]]; try done.
  intros [[Hact Hbad] | (H1 & H2 & H3 & H4)]; simpl.
  - rewrite (eq_str_true _ _ Hact). simpl. unfold on_message.
    destruct Hbad as [-> | Hk]; [done|].
    destruct (message_prints items); simpl; [by rewrite Hk | done].
  - by rewrite H1, H2, H3, H4.
Qed.

(** X15: A chunk that is not UTF-8, text on which [json.loads] raises
    something else than [JSONDecodeError], a JSON value that is not an
    object, a Deliver frame that cannot be printed or whose [recipient] is a
    list or an object, an unknown action that cannot be printed, and a
    failing [recv] all end the session exactly as the end of the stream does:
    nothing is routed, and the [finally] block runs on the state as it
    was. *)
Theorem fatal_input_ends_session
    (st : server) (c : sock) (client_id : json) (r : recv_result) :
  threads st !! c = Some client_id →
  fatal r →
  step (Recv c r) st = step (Recv c RecvEmpty) st ∧
  threads (step (Recv c r) st).1 !! c = None ∧
  offline_messages (step (Recv c r) st).1 = offline_messages st.
Proof.
  intros Hth Hfatal.
  rewrite !(step_recv _ _ _ _ Hth), (fatal_loop_body _ _ _ _ Hfatal).
  simpl. pose proof (finally_offline c client_id st) as Hoff.
  destruct (finally c client_id st) as [st' tr]; simpl in *.
  split_and!; [done | apply lookup_delete_eq | done].
Qed.

Lemma fatal_input_ends_session_witness :
  let r := Loaded (JObj [("action", JStr "message");
                         ("recipient", JArr [JStr "B"])]) in
  step (Recv 0 r) Scenario.one_online =
    step (Recv 0 RecvEmpty) Scenario.one_online ∧
  threads (step (Recv 0 r) Scenario.one_online).1 !! 0%nat = None ∧
  offline_messages (step (Recv 0 r) Scenario.one_online).1 =
    offline_messages Scenario.one_online.
Proof.
  apply (fatal_input_ends_session Scenario.one_online 0 (JStr "A")
           (Loaded (JObj [("action", JStr "message");
                          ("recipient", JArr [JStr "B"])])));
    [reflexivity | left; split; [reflexivity | right; reflexivity]].
Defined.

(** ** More on the sweep *)

Lemma evict_trace_exact ids st e :
  NoDup ids →
  all_registered ids st →
  e ∈ (evict ids st).2 ↔
  ∃ k info, k ∈ ids ∧ clients st !! k = Some info ∧ e = Close (socket info).
Proof.
  intros Hnd Hall. split.
  - revert st Hnd Hall. induction ids as [|k ids IH]; intros st Hnd Hall; simpl.
    { by intros ?%elem_of_nil. }
    destruct (Hall k) as [info Hk]; [by left|]. rewrite Hk.
    specialize (IH _ (NoDup_cons_1_2 _ _ Hnd)
                  (all_registered_tail _ _ _ info Hnd Hall)).
    destruct (evict ids _) as [st2 tr]. simpl in *.
    intros [-> | Hin]%elem_of_cons.
    + exists k, info. split_and!; [by left | done | done].
    + destruct (IH Hin) as (k' & info' & Hk' & Hlook & ->).
      apply lookup_delete_Some in Hlook as [_ Hlook].
      exists k', info'. split_and!; [by right | done | done].
  - intros (k & info & Hin & Hk & ->).
    by apply (evict_closes ids st k info).
Qed.

Lemma evict_closed ids st c :
  c ∈ closed (evict ids st).1 ↔ c ∈ closed st ∨ Close c ∈ (evict ids st).2.
Proof.
  revert st. induction ids as [|k ids IH]; intros st; simpl.
  { split; [by left | intros [?|?%elem_of_nil]; done]. }
  destruct (clients st !! k) as [info|].
  2: { split; [by left | intros [?|?%elem_of_nil]; done]. }
  specialize (IH (with_clients (delete k) (close_socket (socket info) st))).
  destruct (evict ids _) as [st2 tr]. simpl in *.
  rewrite IH, elem_of_union, elem_of_singleton, elem_of_cons.
  split.
  - intros [[->|?]|?]; auto.
  - intros [?|[[= ->]|?]]; auto.
Qed.

(** X9: A sweep calls [close] on the sockets of the entries that are past the
    timeout and on no other socket, and it sends nothing; the handles that
    are closed after the sweep are those that were closed before and those. *)
Theorem sweep_closes_exactly_stale_sockets (st : server) :
  (∀ e, e ∈ (step Sweep st).2 ↔
        ∃ k info, clients st !! k = Some info ∧
                  now st - last_seen info > HEARTBEAT_TIMEOUT ∧
                  e = Close (socket info)) ∧
  (∀ c, c ∈ closed (step Sweep st).1 ↔
        c ∈ closed st ∨ Close c ∈ (step Sweep st).2).
Proof.
  split.
  - intros e. simpl. unfold heartbeat_checker.
    rewrite evict_trace_exact
      by auto using NoDup_to_remove, to_remove_registered.
    split.
    + intros (k & info & Hin & Hk & ->).
      apply elem_of_to_remove in Hin as (info' & Hk' & Hst).
      assert (info' = info) as -> by congruence.
      exists k, info. by rewrite <- stale_true.
    + intros (k & info & Hk & Hst & ->). exists k, info.
      split_and!; [|done..]. apply elem_of_to_remove.
      exists info. by rewrite stale_true.
  - intros c. apply evict_closed.
Qed.

(** X10: A sweep leaves every entry that is within the timeout as it is, and it
    does not touch the offline store, the running threads or the clock. *)
Theorem sweep_keeps_fresh_entries
    (st : server) (k : pykey) (info : client_info) :
  clients st !! k = Some info →
  now st - last_seen info ≤ HEARTBEAT_TIMEOUT →
  clients (step Sweep st).1 !! k = Some info ∧
  offline_messages (step Sweep st).1 = offline_messages st ∧
  threads (step Sweep st).1 = threads st ∧
  now (step Sweep st).1 = now st.
Proof.
  intros Hk Hfresh. split.
  - rewrite sweep_clients, Hk.
    destruct (stale (now st) info) eqn:Hst; [|done].
    apply stale_true in Hst. lia.
  - destruct (evict_frame (to_remove st) st) as (? & ? & _ & ? & _). done.
Qed.

Lemma sweep_keeps_fresh_entries_witness :
  let st := Session.one_stale_one_fresh in
  clients (step Sweep st).1 !! KStr "B" = Some (ClientInfo 1 10) ∧
  offline_messages (step Sweep st).1 = offline_messages st ∧
  threads (step Sweep st).1 = threads st ∧
  now (step Sweep st).1 = now st.
Proof.
  apply (sweep_keeps_fresh_entries Session.one_stale_one_fresh (KStr "B")
           (ClientInfo 1 10)); [reflexivity | vm_compute; discriminate].
Defined.

Lemma to_remove_nil st :
  seen_within HEARTBEAT_TIMEOUT st → to_remove st = [].
Proof.
  intros Hinv. apply elem_of_nil_inv. intros k Hin.
  apply elem_of_to_remove in Hin as (info & Hk & Hst).
  apply stale_true in Hst. specialize (Hinv k info Hk). lia.
Qed.

(** X11: A second sweep at the same clock reading does nothing: it closes no
    socket and leaves the state as the first sweep left it. *)
Theorem sweep_twice_is_sweep_once (st : server) :
  step Sweep (step Sweep st).1 = ((step Sweep st).1, []).
Proof.
  pose proof (sweep_seen_within st) as Hinv.
  change (step Sweep (step Sweep st).1)
    with (heartbeat_checker (step Sweep st).1).
  unfold heartbeat_checker at 1. by rewrite (to_remove_nil _ Hinv).
Qed.

(** ** Heartbeats and the sweep together *)

Lemma heartbeat_touches_own_identifier_witness :
  let st := Scenario.one_silent in
  let res := step (Recv 0 (Loaded (heartbeat_msg "Z" 16))) st in
  clients res.1 = <[KStr "A" := ClientInfo 0 16]> (clients st) ∧
  threads res.1 !! 0%nat = Some (JStr "A") ∧
  res.2 = [].
Proof.
  apply (heartbeat_touches_own_identifier Scenario.one_silent 0 (JStr "A")
           (heartbeat_items "Z" 16) (KStr "A"));
    [reflexivity | vm_compute; set_solver | reflexivity | reflexivity].
Defined.

Lemma invalid_json_and_unknown_action_are_ignored_witness :
  step (Recv 0 (Loaded (JObj [("action", JStr "ping")]))) Scenario.one_online =
    (Scenario.one_online, []).
Proof.
  apply (invalid_json_and_unknown_action_are_ignored Scenario.one_online 0
           (JStr "A") (Loaded (JObj [("action", JStr "ping")])));
    [reflexivity |].
  right. exists [("action", JStr "ping")]. by split_and!.
Defined.

(** X13: A Heartbeat frame on a registered connection, however old the entry was,
    keeps the entry in the registry through a sweep that runs at most
    [HEARTBEAT_TIMEOUT] later. *)
Theorem heartbeat_keeps_entry_through_sweep
    (st : server) (c : sock) (client_id : json)
    (items : list (string * json)) (k : pykey) (info : client_info) (d : N) :
  threads st !! c = Some client_id →
  c ∉ closed st →
  eq_str (get items "action") "heartbeat" = true →
  hash_key client_id = Some k →
  clients st !! k = Some info →
  Z.of_N d ≤ HEARTBEAT_TIMEOUT →
  clients (run [Recv c (Loaded (JObj items)); Tick d; Sweep] st) !! k =
    Some (ClientInfo (socket info) (now st)).
Proof.
  intros Hth Hopen Hact Hk Hinfo Hd.
  change (run [Recv c (Loaded (JObj items)); Tick d; Sweep] st)
    with (step Sweep (step (Tick d)
            (step (Recv c (Loaded (JObj items))) st).1).1).1.
  rewrite (step_recv _ _ _ _ Hth).
  rewrite (loop_body_heartbeat _ _ _ _ Hact). cbv zeta.
  unfold on_heartbeat. rewrite Hk, Hinfo.
  cbn [it_flow it_state it_client_id fst].
  rewrite sweep_clients. cbn [step fst clients with_threads with_clients now].
  rewrite lookup_insert_eq.
  destruct (stale _ _) eqn:Hst; [|done].
  apply stale_true in Hst. simpl in Hst. lia.
Qed.

Lemma heartbeat_keeps_entry_through_sweep_witness :
  clients (run [Recv 0 (Loaded (heartbeat_msg "A" 16)); Tick 15; Sweep]
             Scenario.one_silent) !! KStr "A" =
    Some (ClientInfo 0 16).
Proof.
  apply (heartbeat_keeps_entry_through_sweep Scenario.one_silent 0 (JStr "A")
           (heartbeat_items "A" 16) (KStr "A") (ClientInfo 0 0) 15);
    [reflexivity | vm_compute; set_solver | reflexivity | reflexivity
    | reflexivity | vm_compute; discriminate].
Defined.

(** ** Store and forward *)



(** X8: A Register frame, for an identifier that can be printed, on a
    connection whose peer is gone still empties the queue of the identifier:
    every [send] of the drain raises, nothing is put back, and the other
    queues are as they were. *)
Theorem drain_to_dead_connection_drops_queue
    (st : server) (c : sock) (client_id : json)
    (items : list (string * json)) (k : pykey) :
  threads st !! c = Some client_id →
  c ∉ closed st →
  eq_str (get items "action") "register" = true →
  hash_key (get items "sender") = Some k →
  printable (get items "sender") = true →
  c ∈ reset st →
  let res := step (Recv c (Loaded (JObj items))) st in
  res.2 = (λ m, Send c m false) <$> default [] (offline_messages st !! k) ∧
  offline_messages res.1 = delete k (offline_messages st).
Proof.
  intros Hth Hopen Hact Hk Hpr Hreset res. subst res.
  rewrite (register_step _ _ _ _ _ Hth Hact Hk Hpr). cbv zeta.
  rewrite (on_register_trace _ _ _ _ Hk Hpr), (on_register_state _ _ _ _ Hk Hpr).
  split; [|done].
  rewrite (send_ok_open _ _ Hopen).
  by rewrite bool_decide_eq_false_2 by (by intros ?).
Qed.

Lemma drain_to_dead_connection_drops_queue_witness :
  let m := deliver_msg "A" "B" 0 "hi" in
  let st := run [PeerReset 1] Session.one_queued_one_connected in
  let res := step (Recv 1 (Loaded (register_msg "B" 1))) st in
  res.2 = [Send 1 m false] ∧
  offline_messages res.1 = delete (KStr "B") (offline_messages st).
Proof.
  apply (drain_to_dead_connection_drops_queue
           (run [PeerReset 1] Session.one_queued_one_connected) 1 JNull
           (register_items "B" 1) (KStr "B"));
    [reflexivity | vm_compute; set_solver | reflexivity | reflexivity
    | reflexivity | vm_compute; set_solver].
Defined.

Lemma hash_key_printable v v' k :
  hash_key v = Some k → hash_key v' = Some k → printable v = printable v'.
Proof.
  destruct v, v'; simpl; intros; simplify_eq; try done.
  all: by repeat case_match.
Qed.

Lemma unprintable_truthy v :
  printable v = false → truthy v = true ∧ is_Some (hash_key v).
Proof.
  destruct v as [| | |s| |]; simpl; try done.
  intros Hs. split; [|by eexists]. by destruct s.
Qed.

Lemma unprintable_register_sends_nothing st c items :
  printable (get items "sender") = false →
  eq_str (get items "action") "register" = true →
  (step (Recv c (Loaded (JObj items))) st).2 = [].
Proof.
  intros Hpr Hact. unfold step.
  destruct (threads st !! c) as [client_id|]; [|done].
  rewrite (loop_body_register _ _ _ _ Hact). cbv zeta.
  destruct (unprintable_truthy _ Hpr) as [Htr [k Hk]].
  unfold on_register. cbv zeta. rewrite Hk, Hpr.
  cbn [it_flow it_state it_client_id it_trace]. unfold finally.
  by rewrite Htr, Hk, Hpr.
Qed.

(** X7: After a Register frame for an identifier, a second Register frame for
    it, on the same or on another connection, sends nothing: a queue is
    handed out once. *)
Theorem second_register_sends_nothing
    (st : server) (c c' : sock) (id id' : json)
    (items items' : list (string * json)) (k : pykey) :
  threads st !! c = Some id →
  c ∉ closed st →
  eq_str (get items "action") "register" = true →
  hash_key (get items "sender") = Some k →
  threads st !! c' = Some id' →
  c' ∉ closed st →
  eq_str (get items' "action") "register" = true →
  hash_key (get items' "sender") = Some k →
  (step (Recv c' (Loaded (JObj items')))
        (step (Recv c (Loaded (JObj items))) st).1).2 = [].
Proof.
  intros Hth Hopen Hact Hk Hth' Hopen' Hact' Hk'.
  destruct (printable (get items' "sender")) eqn:Hpr';
    [| by apply unprintable_register_sends_nothing].
  assert (printable (get items "sender") = true) as Hpr
    by (by rewrite (hash_key_printable _ _ _ Hk Hk')).
  rewrite (register_step _ _ _ _ _ Hth Hact Hk Hpr). cbv zeta.
  rewrite (on_register_state _ _ _ _ Hk Hpr). cbn [fst].
  set (st1 := with_threads _ _).
  assert (∃ id1, threads st1 !! c' = Some id1) as [id1 Hth1].
  { subst st1. simpl. destruct (decide (c = c')) as [->|Hne].
    - rewrite lookup_insert_eq. eauto.
    - rewrite lookup_insert_ne by done. eauto. }
  rewrite (register_step st1 c' id1 items' k); [|done..]. cbv zeta.
  rewrite (on_register_trace _ _ _ k Hk' Hpr').
  subst st1. simpl. by rewrite lookup_delete_eq.
Qed.

Lemma second_register_sends_nothing_witness :
  (step (Recv 0 (Loaded (register_msg "B" 2)))
        (step (Recv 1 (Loaded (register_msg "B" 1)))
              Session.one_queued_one_connected).1).2 = [].
Proof.
  apply (second_register_sends_nothing Session.one_queued_one_connected
           1 0 JNull JNull (register_items "B" 1) (register_items "B" 2)
           (KStr "B"));
    [reflexivity | vm_compute; set_solver | reflexivity | reflexivity
    | reflexivity | vm_compute; set_solver | reflexivity | reflexivity].
Defined.

(** ** The frames of the client *)

Lemma heartbeat_step st c client_id items k info :
  threads st !! c = Some client_id →
  c ∉ closed st →
  eq_str (get items "action") "heartbeat" = true →
  hash_key client_id = Some k →
  clients st !! k = Some info →
  (step (Recv c (Loaded (JObj items))) st).1 =
    with_threads (λ th, <[c := client_id]> th)
      (with_clients (λ cl, <[k := ClientInfo (socket info) (now st)]> cl) st).
Proof.
  intros Hth Hopen Hact Hk Hinfo.
  rewrite (step_recv _ _ _ _ Hth).
  rewrite (loop_body_heartbeat _ _ _ _ Hact). cbv zeta.
  unfold on_heartbeat. by rewrite Hk, Hinfo.
Qed.

(** X19: The start of [main] of the client, each frame arriving as a chunk
    of its own, for a name that can be printed: after [register_msg] and,
    some time later, the first [heartbeat_msg], the client's name is bound to
    its connection, was last seen at the time of the heartbeat, and is the
    identity of the session. *)
Theorem client_heartbeat_refreshes_registration
    (st : server) (c : sock) (id : json) (s : string) (t t' : Z) (d : N) :
  threads st !! c = Some id →
  c ∉ closed st →
  printable (JStr s) = true →
  let st' := run [Recv c (Loaded (register_msg s t)); Tick d;
                  Recv c (Loaded (heartbeat_msg s t'))] st in
  clients st' !! KStr s = Some (ClientInfo c (now st + Z.of_N d)) ∧
  threads st' !! c = Some (JStr s).
Proof.
  intros Hth Hopen Hpr st'. subst st'.
  change (run _ st)
    with (step (Recv c (Loaded (JObj (heartbeat_items s t'))))
            (step (Tick d)
               (step (Recv c (Loaded (JObj (register_items s t)))) st).1).1).1.
  rewrite (register_step st c id (register_items s t) (KStr s));
    [|done..]. cbv zeta.
  rewrite (on_register_state st c (register_items s t) (KStr s) eq_refl Hpr).
  cbn [fst].
  set (st2 := (step (Tick d) _).1).
  assert (threads st2 !! c = Some (JStr s)) as Hth2
    by apply lookup_insert_eq.
  assert (c ∉ closed st2) as Hopen2 by exact Hopen.
  assert (clients st2 !! KStr s = Some (ClientInfo c (now st))) as Hcl2
    by apply lookup_insert_eq.
  assert (now st2 = now st + Z.of_N d) as Hnow2 by reflexivity.
  rewrite (heartbeat_step st2 c (JStr s) (heartbeat_items s t') (KStr s)
             (ClientInfo c (now st)) Hth2 Hopen2 eq_refl eq_refl Hcl2).
  cbn [clients threads with_threads with_clients socket]. rewrite Hnow2.
  split; apply lookup_insert_eq.
Qed.

Lemma client_heartbeat_refreshes_registration_witness :
  let st' := run [Recv 1 (Loaded (register_msg "B" 0)); Tick 5;
                  Recv 1 (Loaded (heartbeat_msg "B" 5))]
               Scenario.one_online_one_connected in
  clients st' !! KStr "B" = Some (ClientInfo 1 (0 + Z.of_N 5)) ∧
  threads st' !! 1%nat = Some (JStr "B").
Proof.
  apply (client_heartbeat_refreshes_registration
           Scenario.one_online_one_connected 1 JNull "B" 0 5 5);
    [reflexivity | vm_compute; set_solver | reflexivity].
Defined.

(** ** Two names on one connection *)

Lemma register_state st c client_id items k :
  threads st !! c = Some client_id →
  eq_str (get items "action") "register" = true →
  hash_key (get items "sender") = Some k →
  printable (get items "sender") = true →
  (step (Recv c (Loaded (JObj items))) st).1 =
    with_threads (λ th, <[c := get items "sender"]> th)
      (with_offline (delete k)
         (with_clients (λ cl, <[k := ClientInfo c (now st)]> cl) st)).
Proof.
  intros Hth Hact Hk Hpr.
  rewrite (register_step _ _ _ _ _ Hth Hact Hk Hpr). cbv zeta.
  by rewrite (on_register_state _ _ _ _ Hk Hpr).
Qed.

(** X18: A connection that registers a first identifier and then a second one,
    both of which can be printed, keeps both entries; when it reaches the end
    of the stream only the second is considered, so the first stays in the
    registry, bound to the closed socket, until a sweep finds it past the
    timeout. *)
Theorem first_identifier_outlives_connection
    (st : server) (c : sock) (id : json)
    (items1 items2 : list (string * json)) (k1 k2 : pykey) :
  threads st !! c = Some id →
  c ∉ closed st →
  eq_str (get items1 "action") "register" = true →
  hash_key (get items1 "sender") = Some k1 →
  printable (get items1 "sender") = true →
  eq_str (get items2 "action") "register" = true →
  hash_key (get items2 "sender") = Some k2 →
  printable (get items2 "sender") = true →
  k1 ≠ k2 →
  let st' := run [Recv c (Loaded (JObj items1)); Recv c (Loaded (JObj items2));
                  Recv c RecvEmpty] st in
  clients st' !! k1 = Some (ClientInfo c (now st)) ∧
  c ∈ closed st' ∧
  threads st' !! c = None.
Proof.
  intros Hth Hopen Hact1 Hk1 Hpr1 Hact2 Hk2 Hpr2 Hne st'. subst st'.
  change (run _ st)
    with (step (Recv c RecvEmpty)
            (step (Recv c (Loaded (JObj items2)))
               (step (Recv c (Loaded (JObj items1))) st).1).1).1.
  rewrite (register_state _ _ _ _ _ Hth Hact1 Hk1 Hpr1).
  set (st1 := with_threads _ _).
  rewrite (register_state st1 c (get items1 "sender") items2 k2);
    [| apply lookup_insert_eq | done | done | done].
  set (st2 := with_threads _ _).
  assert (threads st2 !! c = Some (get items2 "sender")) as Hth2
    by apply lookup_insert_eq.
  assert (clients st2 !! k1 = Some (ClientInfo c (now st))) as Hcl2.
  { subst st2 st1. cbn [clients with_threads with_offline with_clients].
    rewrite lookup_insert_ne by done. apply lookup_insert_eq. }
  rewrite (step_recv _ _ _ _ Hth2).
  cbn [loop_body it_flow it_state it_client_id it_trace].
  unfold finally. rewrite Hk2, Hpr2.
  destruct (truthy (get items2 "sender"));
    cbn [fst clients closed threads with_threads close_socket with_clients].
  - split_and!.
    + rewrite lookup_delete_ne by done. exact Hcl2.
    + apply elem_of_union. left. by apply elem_of_singleton.
    + apply lookup_delete_eq.
  - split_and!.
    + exact Hcl2.
    + apply elem_of_union. left. by apply elem_of_singleton.
    + apply lookup_delete_eq.
Qed.

Lemma first_identifier_outlives_connection_witness :
  let st' := run [Recv 1 (Loaded (register_msg "B" 0));
                  Recv 1 (Loaded (register_msg "C" 0)); Recv 1 RecvEmpty]
               Scenario.one_online_one_connected in
  clients st' !! KStr "B" = Some (ClientInfo 1 0) ∧
  1%nat ∈ closed st' ∧
  threads st' !! 1%nat = None.
Proof.
  apply (first_identifier_outlives_connection
           Scenario.one_online_one_connected 1 JNull
           (register_items "B" 0) (register_items "C" 0) (KStr "B") (KStr "C"));
    [reflexivity | vm_compute; set_solver | reflexivity | reflexivity
    | reflexivity | reflexivity | reflexivity | reflexivity | discriminate].
Defined.

(** ** How a queue can change *)

Lemma loop_body_offline c client_id r st :
  offline_messages (it_state (loop_body c client_id r st)) =
    offline_messages st ∨
  (∃ k, offline_messages (it_state (loop_body c client_id r st)) =
          delete k (offline_messages st)) ∨
  (∃ k m, offline_messages (it_state (loop_body c client_id r st)) =
            <[k := default [] (offline_messages st !! k) ++ [m]]>
              (offline_messages st)).
Proof.
  destruct r as [| | | | |[| | | | |items]]; simpl; auto.
  unfold on_register, on_heartbeat, on_message, retrieve_offline_messages.
  repeat case_match; simplify_eq/=; eauto 10.
Qed.

(** X4: In one step, whatever the event, the queue of an identifier stays as it
    is, or is taken away whole, or gets one message at its end: a queue is
    never reordered, never loses part of its messages and never gets a
    message in front. *)
Theorem queue_changes_by_append_or_drain
    (e : event) (st : server) (k : pykey) :
  let q := default [] (offline_messages st !! k) in
  let q' := default [] (offline_messages (step e st).1 !! k) in
  q' = q ∨ q' = [] ∨ ∃ m, q' = q ++ [m].
Proof.
  intros q q'. subst q q'.
  assert (∀ st', offline_messages st' = offline_messages st →
            default [] (offline_messages st' !! k) =
              default [] (offline_messages st !! k)) as Hsame
    by (by intros st' ->).
  destruct e as [|c r| |d|c]; simpl; auto.
  - destruct (threads st !! c) as [client_id|]; [|auto].
    pose proof (loop_body_offline c client_id r st) as Hoff.
    assert (∀ st', offline_messages st' =
              offline_messages (it_state (loop_body c client_id r st)) →
            default [] (offline_messages st' !! k) =
              default [] (offline_messages st !! k) ∨
            default [] (offline_messages st' !! k) = [] ∨
            ∃ m, default [] (offline_messages st' !! k) =
                   default [] (offline_messages st !! k) ++ [m]) as Hcases.
    { intros st' ->. simpl in Hoff.
      destruct Hoff as [-> | [(k0 & ->) | (k0 & m & ->)]]; [by left | |].
      - rewrite lookup_delete. case_decide; [by right; left | by left].
      - rewrite lookup_insert. case_decide; [|by left].
        subst k0. right. right. by exists m. }
    destruct (it_flow _); [by apply Hcases| |].
    all: pose proof (finally_offline c
           (it_client_id (loop_body c client_id r st))
           (it_state (loop_body c client_id r st))) as Hfin.
    all: destruct (finally _ _ _) as [st' tr]; simpl in *.
    all: by apply Hcases.
  - left. apply Hsame.
    by destruct (evict_frame (to_remove st) st) as (? & _).
Qed.

(** ** A Register frame without a usable sender *)

(** X16: A Register frame whose [sender] is a list or an object registers
    nothing: the assignment into the registry raises, the session ends, and
    the registry and the offline store are as they were; nothing is sent. *)
Theorem register_with_unhashable_sender_ends_session
    (st : server) (c : sock) (client_id : json)
    (items : list (string * json)) :
  threads st !! c = Some client_id →
  c ∉ closed st →
  eq_str (get items "action") "register" = true →
  hash_key (get items "sender") = None →
  let res := step (Recv c (Loaded (JObj items))) st in
  clients res.1 = clients st ∧
  offline_messages res.1 = offline_messages st ∧
  threads res.1 !! c = None ∧
  ∀ c' m ok, Send c' m ok ∉ res.2.
Proof.
  intros Hth Hopen Hact Hk res. subst res.
  rewrite (step_recv _ _ _ _ Hth).
  rewrite (loop_body_register _ _ _ _ Hact). cbv zeta.
  unfold on_register. rewrite Hk.
  cbn [it_flow it_state it_client_id it_trace].
  unfold finally. rewrite Hk.
  destruct (truthy (get items "sender")); simpl.
  - split_and!; [done | done | apply lookup_delete_eq |].
    by intros c' m ok ?%elem_of_nil.
  - split_and!; [done | done | apply lookup_delete_eq |].
    by intros c' m ok ?%list_elem_of_singleton.
Qed.

Lemma register_with_unhashable_sender_ends_session_witness :
  let items := [("action", JStr "register"); ("sender", JArr [JStr "B"])] in
  let res := step (Recv 1 (Loaded (JObj items)))
               Session.one_queued_one_connected in
  clients res.1 = clients Session.one_queued_one_connected ∧
  offline_messages res.1 = offline_messages Session.one_queued_one_connected ∧
  threads res.1 !! 1%nat = None ∧
  ∀ c' m ok, Send c' m ok ∉ res.2.
Proof.
  apply (register_with_unhashable_sender_ends_session
           Session.one_queued_one_connected 1 JNull
           [("action", JStr "register"); ("sender", JArr [JStr "B"])]);
    [reflexivity | vm_compute; set_solver | reflexivity | reflexivity].
Defined.
